(** * terraform-provider-solidserver: resource handlers

    A shallow embedding of three resource files of the provider
    (application pool, DNS forward zone, IP/MAC association) and the
    properties of their Create / Read / Update / Delete / Import handlers.

    Every handler has the same shape: build url.Values from the resource
    data, issue one call of [s.Request], decode the JSON array of the
    answer, look at its first element, and write the local state.  The
    handlers are embedded in a small monad carrying the resource data, the
    list of requests sent so far, and the possibility of a Go panic
    (a failed unchecked type assertion).  The calls of tflog are left out:
    they change neither the data nor the result. *)

From Stdlib Require Import ZArith String Ascii List Bool Lia DecimalString DecimalPos.
From stdpp Require Import base option list gmap strings sorting.

Set Warnings "-register-all".

Open Scope string_scope.
Open Scope Z_scope.

(** ** The parts of the Go standard library the handlers call *)

Module GoStrings.

(** strings.ToLower on the ASCII range: the bytes 'A'..'Z' are mapped to
    'a'..'z', every other byte is kept (Go also lower-cases the letters
    outside ASCII, which this byte-wise model leaves alone). *)
Definition lower_byte (c : ascii) : ascii :=
  let n := nat_of_ascii c in
  if Nat.leb 65 n && Nat.leb n 90 then ascii_of_nat (n + 32) else c.

Fixpoint ToLower (s : string) : string :=
  match s with
  | EmptyString => EmptyString
  | String c r => String (lower_byte c) (ToLower r)
  end.

(** strings.HasSuffix: len(s) >= len(suffix) && s[len(s)-len(suffix):] == suffix *)
Definition HasSuffix (s suffix : string) : bool :=
  let n := String.length s in
  let m := String.length suffix in
  Nat.leb m n && String.eqb (substring (n - m) m s) suffix.

(** strings.TrimSuffix: s[:len(s)-len(suffix)] when s ends with suffix, else s *)
Definition TrimSuffix (s suffix : string) : string :=
  if HasSuffix s suffix
  then substring 0 (String.length s - String.length suffix) s
  else s.

(** strings.Contains *)
Fixpoint Contains (s substr : string) : bool :=
  String.prefix substr s ||
  match s with
  | EmptyString => false
  | String _ r => Contains r substr
  end.

(** The scan behind strings.Split for a non-empty separator: [cur] is the
    piece being read, [skip] the number of bytes of a separator that was
    just recognised and is still to be passed over. *)
Fixpoint split_scan (sep s : string) (skip : nat) (cur : string) : list string :=
  match s with
  | EmptyString => [cur]
  | String c r =>
      match skip with
      | S k => split_scan sep r k cur
      | O =>
          if String.prefix sep s
          then cur :: split_scan sep r (String.length sep - 1) EmptyString
          else split_scan sep r O (cur +:+ String c EmptyString)
      end
  end.

Fixpoint explode (s : string) : list string :=
  match s with
  | EmptyString => []
  | String c r => String c EmptyString :: explode r
  end.

(** strings.Split(s, sep): all pieces of s between occurrences of sep; a
    string without sep gives the one-element list [s], also when s is
    empty.  With an empty separator Go splits after each UTF-8 sequence,
    modelled here byte by byte. *)
Definition Split (s sep : string) : list string :=
  match sep with
  | EmptyString => explode s
  | _ => split_scan sep s O EmptyString
  end.

(** strings.Cut(s, sep) = (before, after, found) *)
Fixpoint Cut (s sep : string) : string * string * bool :=
  if String.prefix sep s
  then (EmptyString, substring (String.length sep) (String.length s - String.length sep) s, true)
  else match s with
       | EmptyString => (EmptyString, EmptyString, false)
       | String c r => let '(before, after, found) := Cut r sep in
                       (String c before, after, found)
       end.

End GoStrings.

Module Strconv.

(** strconv.Itoa *)
Definition Itoa (i : Z) : string := NilZero.string_of_int (Z.to_int i).

Definition digit_of (c : ascii) : option Z :=
  let n := nat_of_ascii c in
  if Nat.leb 48 n && Nat.leb n 57 then Some (Z.of_nat n - 48) else None.

Fixpoint digits (s : string) (acc : Z) : option Z :=
  match s with
  | EmptyString => Some acc
  | String c r => match digit_of c with
                  | Some v => digits r (10 * acc + v)
                  | None => None
                  end
  end.

Definition maxInt : Z := 2 ^ 63 - 1.
Definition minInt : Z := - 2 ^ 63.

(** strconv.Atoi with the error dropped, as every caller in the sources
    does (`v, _ := strconv.Atoi(x)`): a syntax error leaves 0, a value out
    of the range of a 64-bit int leaves the nearest bound. *)
Definition Atoi (s : string) : Z :=
  let '(neg, body) :=
    match s with
    | String "+" r => (false, r)
    | String "-" r => (true, r)
    | _ => (false, s)
    end in
  match body with
  | EmptyString => 0
  | _ => match digits body 0 with
         | None => 0
         | Some n => let v := if neg then - n else n in
                     Z.max minInt (Z.min maxInt v)
         end
  end.

End Strconv.

Module Url.

(** url.Values is a map[string][]string. *)
Abbreviation Values := (gmap string (list string)).

(** Values.Add: v[key] = append(v[key], value) *)
Definition Add (key value : string) (v : Values) : Values :=
  <[key := (default [] (v !! key) ++ [value])%list]> v.

Definition hex_val (c : ascii) : option nat :=
  let n := nat_of_ascii c in
  if Nat.leb 48 n && Nat.leb n 57 then Some (n - 48)%nat
  else if Nat.leb 97 n && Nat.leb n 102 then Some (n - 87)%nat
  else if Nat.leb 65 n && Nat.leb n 70 then Some (n - 55)%nat
  else None.

(** url.QueryUnescape: %XX becomes the byte XX, '+' a space; a '%' that
    is not followed by two hexadecimal digits is an error. *)
Fixpoint QueryUnescape (s : string) : option string :=
  match s with
  | EmptyString => Some EmptyString
  | String "%" (String h (String l r)) =>
      match hex_val h, hex_val l with
      | Some a, Some b => String (ascii_of_nat (16 * a + b)) <$> QueryUnescape r
      | _, _ => None
      end
  | String "%" _ => None
  | String "+" r => String " " <$> QueryUnescape r
  | String c r => String c <$> QueryUnescape r
  end.

(** One iteration of the loop of url.ParseQuery on the piece [key] cut
    off before the next '&'. *)
Definition parse_pair (m : Values) (piece : string) : Values :=
  if GoStrings.Contains piece ";" then m
  else if String.eqb piece "" then m
  else
    let '(key, value, _) := GoStrings.Cut piece "=" in
    match QueryUnescape key with
    | None => m
    | Some key1 =>
        match QueryUnescape value with
        | None => m
        | Some value1 => Add key1 value1 m
        end
    end.

(** url.ParseQuery with the error dropped (`m, _ := url.ParseQuery(q)`):
    the pairs that parse are in the map, the others are skipped.  Go cuts
    the query at each '&' in a loop; the pieces it visits are those of
    Split(query, "&"). *)
Definition ParseQuery (query : string) : Values :=
  fold_left parse_pair (GoStrings.Split query "&") ∅.

Definition upperhex (n : nat) : ascii :=
  if Nat.ltb n 10 then ascii_of_nat (48 + n) else ascii_of_nat (55 + n).

(** shouldEscape in the query-component mode: letters, digits and
    '-' '_' '.' '~' are kept. *)
Definition unreserved (c : ascii) : bool :=
  let n := nat_of_ascii c in
  (Nat.leb 97 n && Nat.leb n 122) || (Nat.leb 65 n && Nat.leb n 90) ||
  (Nat.leb 48 n && Nat.leb n 57) ||
  Nat.eqb n 45 || Nat.eqb n 95 || Nat.eqb n 46 || Nat.eqb n 126.

(** url.QueryEscape *)
Fixpoint QueryEscape (s : string) : string :=
  match s with
  | EmptyString => EmptyString
  | String c r =>
      if unreserved c then String c (QueryEscape r)
      else if Ascii.eqb c " " then String "+" (QueryEscape r)
      else let n := nat_of_ascii c in
           String "%" (String (upperhex (n / 16)) (String (upperhex (n mod 16)) (QueryEscape r)))
  end.

Definition string_le (a b : string) : Prop := String.leb a b = true.

#[global] Instance string_le_dec a b : Decision (string_le a b).
Proof. unfold string_le. apply _. Defined.

Definition join_amp (pieces : list string) : string :=
  match pieces with
  | [] => EmptyString
  | p :: ps => fold_left (fun acc q => acc +:+ "&" +:+ q) ps p
  end.

(** Values.Encode: "k=v" for every value of every key, keys sorted,
    joined with '&'. *)
Definition Encode (v : Values) : string :=
  let keys := merge_sort string_le (fst <$> map_to_list v) in
  join_amp
    (k ← keys;
     (fun value => QueryEscape k +:+ "=" +:+ QueryEscape value) <$> default [] (v !! k)).

End Url.

(** ** JSON answers, diagnostics, the appliance *)

(** A decoded JSON value, what encoding/json stores in an interface{}
    (numbers are kept as their literal). *)
Inductive jvalue : Type :=
| JNull
| JBool (b : bool)
| JNumber (literal : string)
| JString (s : string)
| JArray (elems : list jvalue)
| JObject (members : list (string * jvalue)).

(** One element of `buf [](map[string]interface{})`. *)
Abbreviation jobject := (gmap string jvalue).

(** The comma-ok assertion `v, ok := x.(string)`; a key that is absent from
    the map gives the nil interface, for which the assertion fails too. *)
Definition asString (x : option jvalue) : option string :=
  match x with
  | Some (JString s) => Some s
  | _ => None
  end.

Module Diag.

(** diag.Diagnostics, by the summaries of its (error) diagnostics; nil is
    the empty list. *)
Abbreviation Diagnostics := (list string).

(** diag.Errorf, given the formatted message *)
Definition Errorf (msg : string) : Diagnostics := [msg].

(** diag.FromErr: nil for a nil error *)
Definition FromErr (err : option string) : Diagnostics :=
  match err with
  | None => []
  | Some e => [e]
  end.

End Diag.

(** What `s.Request(method, service, &parameters)` returns: a transport
    error, or the response with its status code and the body as
    json.Unmarshal decodes it into buf (the empty list when the body is not
    an array). *)
Inductive HTTPResult : Type :=
| TransportError (err : string)
| Response (StatusCode : Z) (buf : list jobject).

Record request : Type := mkRequest {
  method : string;
  service : string;
  parameters : Url.Values
}.

(** The configured appliance: its version, and [respond], the answer that
    the appliance and the transport give to a call. *)
Record SOLIDserver : Type := mkSOLIDserver {
  Version : Z;
  respond : string -> string -> Url.Values -> HTTPResult
}.

(** ** The handler monad *)

Inductive outcome (A : Type) : Type :=
| Returned (a : A)
| Panicked.
Arguments Returned {A} a.
Arguments Panicked {A}.

(** The resource data [d] of the handler and the requests sent so far. *)
Record World (D : Type) : Type := mkWorld {
  data : D;
  sent : list request
}.
Arguments mkWorld {D} data sent.
Arguments data {D} w.
Arguments sent {D} w.

Definition M (D A : Type) : Type := World D -> World D * outcome A.

#[global] Instance M_ret D : MRet (M D) :=
  fun A a w => (w, Returned a).

#[global] Instance M_bind D : MBind (M D) :=
  fun A B f m w =>
    match m w with
    | (w', Returned a) => f a w'
    | (w', Panicked) => (w', Panicked)
    end.

Section primitives.
Context {D : Type}.

Definition get : M D D := fun w => (w, Returned (data w)).

Definition modify (f : D -> D) : M D unit :=
  fun w => (mkWorld (f (data w)) (sent w), Returned tt).

Definition panic {A} : M D A := fun w => (w, Panicked).

(** The unchecked assertion `x.(string)` *)
Definition assertString (x : option jvalue) : M D string :=
  match asString x with
  | Some s => mret s
  | None => panic
  end.

(** `s.Request(method, service, &parameters)` *)
Definition Request (s : SOLIDserver) (method service : string)
    (parameters : Url.Values) : M D HTTPResult :=
  fun w => (mkWorld (data w) (sent w ++ [mkRequest method service parameters])%list,
            Returned (respond s method service parameters)).

(** A handler started on the data [d] with no request sent yet. *)
Definition run {A} (m : M D A) (d : D) : World D * outcome A :=
  m (mkWorld d []).

End primitives.

Definition nl : string := String (ascii_of_nat 10) EmptyString.

(** A value handed to d.Set. *)
Inductive fieldval : Type :=
| VString (s : string)
| VBool (b : bool)
| VInt (i : Z)
| VList (l : list string)
| VMap (m : gmap string string).

(** ** Helpers of the provider *)

(** Modelled from the spec: toStringArray and toStringArrayInterface (the
    "string-array marshaling" helpers) are defined in a file of the
    repository that is not among the sources.  They convert a
    []interface{} holding strings to a []string and back, element by
    element; the elements are typed as strings here, so both keep the list. *)
Definition toStringArray (l : list string) : list string := l.
Definition toStringArrayInterface (l : list string) : list string := l.

(** Modelled from the spec: urlfromclassparams (the "class-parameter
    query-string encoding" helper) is defined in a file of the repository
    that is not among the sources.  It adds every key of the class
    parameters with its value to a fresh url.Values. *)
Definition urlfromclassparams (parameters : gmap string string) : Url.Values :=
  map_fold (fun k v acc => Url.Add k v acc) ∅ parameters.

(** ** resource_application_pool.go *)

Module ApplicationPool.
Import Diag.

(** The schema.ResourceData of an application pool: the id and one field
    per key of the schema, with the type the schema gives it, so that
    `d.Get("name").(string)` is the projection [name]. *)
Record ResourceData : Type := mkData {
  Id : string;
  application : string;
  fqdn : string;
  name : string;
  ip_version : string;
  lb_mode : string;
  affinity : bool;
  affinity_session_duration : Z;
  best_active_nodes : Z
}.

(** d.Set(key, value): writes the field when the schema has the key with
    the type of the value; otherwise d.Set returns an error, which no
    handler looks at, and the data is unchanged. *)
Definition writeField (key : string) (value : fieldval) (d : ResourceData) : ResourceData :=
  let '(mkData id app fq nm ipv lb aff dur ban) := d in
  match value with
  | VString v =>
      if String.eqb key "application" then mkData id v fq nm ipv lb aff dur ban
      else if String.eqb key "fqdn" then mkData id app v nm ipv lb aff dur ban
      else if String.eqb key "name" then mkData id app fq v ipv lb aff dur ban
      else if String.eqb key "ip_version" then mkData id app fq nm v lb aff dur ban
      else if String.eqb key "lb_mode" then mkData id app fq nm ipv v aff dur ban
      else d
  | VBool v =>
      if String.eqb key "affinity" then mkData id app fq nm ipv lb v dur ban
      else d
  | VInt v =>
      if String.eqb key "affinity_session_duration" then mkData id app fq nm ipv lb aff v ban
      else if String.eqb key "best_active_nodes" then mkData id app fq nm ipv lb aff dur v
      else d
  | _ => d
  end.

Definition SetField (key : string) (value : fieldval) : M ResourceData unit :=
  modify (writeField key value).

Definition withId (v : string) (d : ResourceData) : ResourceData :=
  mkData v (application d) (fqdn d) (name d) (ip_version d) (lb_mode d)
    (affinity d) (affinity_session_duration d) (best_active_nodes d).

Definition SetId (v : string) : M ResourceData unit := modify (withId v).

Definition unsupported : string := "Object not supported in this SOLIDserver version".

(** "Building parameters" in Create *)
Definition createParameters (d : ResourceData) : Url.Values :=
  let parameters : Url.Values := ∅ in
  let parameters := Url.Add "add_flag" "new_only" parameters in
  let parameters := Url.Add "name" (name d) parameters in
  let parameters := Url.Add "appapplication_name" (application d) parameters in
  let parameters := Url.Add "appapplication_fqdn" (fqdn d) parameters in
  let parameters := Url.Add "type" (ip_version d) parameters in
  let parameters := Url.Add "lb_mode" (lb_mode d) parameters in
  let parameters :=
    if Bool.eqb (affinity d) false
    then Url.Add "affinity_state" "0" parameters
    else Url.Add "affinity_session_time" (Strconv.Itoa (affinity_session_duration d))
           (Url.Add "affinity_state" "1" parameters) in
  if String.eqb (lb_mode d) "latency"
  then Url.Add "best_active_nodes" (Strconv.Itoa (best_active_nodes d)) parameters
  else parameters.

(** "Building parameters" in Update *)
Definition updateParameters (d : ResourceData) : Url.Values :=
  let parameters : Url.Values := ∅ in
  let parameters := Url.Add "apppool_id" (Id d) parameters in
  let parameters := Url.Add "add_flag" "edit_only" parameters in
  let parameters := Url.Add "name" (name d) parameters in
  let parameters := Url.Add "appapplication_name" (application d) parameters in
  let parameters := Url.Add "appapplication_fqdn" (fqdn d) parameters in
  let parameters := Url.Add "type" (ip_version d) parameters in
  let parameters := Url.Add "lb_mode" (lb_mode d) parameters in
  let parameters :=
    if Bool.eqb (affinity d) false
    then Url.Add "affinity_state" "0" parameters
    else Url.Add "affinity_session_time" (Strconv.Itoa (affinity_session_duration d))
           (Url.Add "affinity_state" "1" parameters) in
  if String.eqb (lb_mode d) "latency"
  then Url.Add "best_active_nodes" (Strconv.Itoa (best_active_nodes d)) parameters
  else parameters.

(** The answer check shared, statement for statement, by Create and
    Update: [verbing] is "create" or "update". *)
Definition checkAnswer (verbing : string) (StatusCode : Z) (buf : list jobject)
    : M ResourceData Diagnostics :=
  let failure : M ResourceData Diagnostics :=
    d ← get;
    match buf with
    | b0 :: _ =>
        match asString (b0 !! "errmsg") with
        | Some errMsg =>
            mret (Errorf ("Unable to " +:+ verbing +:+ " application pool: "
                          +:+ name d +:+ " (" +:+ errMsg +:+ ")"))
        | None =>
            mret (Errorf ("Unable to " +:+ verbing +:+ " application pool: "
                          +:+ name d +:+ nl))
        end
    | [] =>
        mret (Errorf ("Unable to " +:+ verbing +:+ " application pool: "
                      +:+ name d +:+ nl))
    end in
  match (StatusCode =? 200) || (StatusCode =? 201), buf with
  | true, b0 :: _ =>
      match asString (b0 !! "ret_oid") with
      | Some oid => SetId oid;; mret []
      | None => failure
      end
  | _, _ => failure
  end.

Definition resourceapplicationpoolCreate (s : SOLIDserver) : M ResourceData Diagnostics :=
  d ← get;
  let parameters := createParameters d in
  if Version s <? 710 then mret (Errorf unsupported)
  else
    r ← Request s "post" "rest/app_pool_add" parameters;
    match r with
    | Response StatusCode buf => checkAnswer "create" StatusCode buf
    | TransportError err => mret (FromErr (Some err))
    end.

Definition resourceapplicationpoolUpdate (s : SOLIDserver) : M ResourceData Diagnostics :=
  d ← get;
  let parameters := updateParameters d in
  if Version s <? 710 then mret (Errorf unsupported)
  else
    r ← Request s "put" "rest/app_pool_add" parameters;
    match r with
    | Response StatusCode buf => checkAnswer "update" StatusCode buf
    | TransportError err => mret (FromErr (Some err))
    end.

Definition resourceapplicationpoolDelete (s : SOLIDserver) : M ResourceData Diagnostics :=
  d ← get;
  let parameters := Url.Add "apppool_id" (Id d) ∅ in
  if Version s <? 710 then mret (Errorf unsupported)
  else
    r ← Request s "delete" "rest/app_pool_delete" parameters;
    match r with
    | Response StatusCode buf =>
        if negb (StatusCode =? 200) && negb (StatusCode =? 204)
        then
          match buf with
          | b0 :: _ =>
              match asString (b0 !! "errmsg") with
              | Some errMsg =>
                  mret (Errorf ("Unable to delete application pool: "
                                +:+ name d +:+ " (" +:+ errMsg +:+ ")"))
              | None => mret (Errorf ("Unable to delete application pool: " +:+ name d))
              end
          | [] => mret (Errorf ("Unable to delete application pool: " +:+ name d))
          end
        else SetId "";; mret []
    | TransportError err => mret (FromErr (Some err))
    end.

(** The body of `if resp.StatusCode == 200 && len(buf) > 0` in Read, on
    the first element [b0] of buf. *)
Definition readFields (b0 : jobject) : M ResourceData unit :=
  v ← assertString (b0 !! "apppool_name"); SetField "name" (VString v);;
  v ← assertString (b0 !! "appapplication_name"); SetField "application" (VString v);;
  v ← assertString (b0 !! "appapplication_fqdn"); SetField "fqdn" (VString v);;
  v ← assertString (b0 !! "apppool_lb_mode"); SetField "lb_mode" (VString v);;
  state ← assertString (b0 !! "apppool_affinity_state");
  (if String.eqb state "0"
   then SetField "affinity" (VBool false)
   else
     SetField "affinity" (VBool true);;
     v ← assertString (b0 !! "apppool_affinity_session_time");
     SetField "affinity_session_duration" (VInt (Strconv.Atoi v)));;
  nodes ← assertString (b0 !! "apppool_best_active_nodes");
  if negb (String.eqb nodes "")
  then
    v ← assertString (b0 !! "apppool_best_active_nodes");
    SetField "best_active_nodes" (VInt (Strconv.Atoi v))
  else mret tt.

Definition resourceapplicationpoolRead (s : SOLIDserver) : M ResourceData Diagnostics :=
  d ← get;
  let parameters := Url.Add "apppool_id" (Id d) ∅ in
  if Version s <? 710 then mret (Errorf unsupported)
  else
    r ← Request s "get" "rest/app_pool_info" parameters;
    match r with
    | Response StatusCode buf =>
        match StatusCode =? 200, buf with
        | true, b0 :: _ => readFields b0;; mret []
        | _, _ =>
            d ← get;
            mret (Errorf ("Unable to find application pool: " +:+ name d +:+ nl))
        end
    | TransportError err => mret (FromErr (Some err))
    end.

(** The same body in ImportState; it writes "affinity_state", a key the
    schema does not have, and resets best_active_nodes to 0. *)
Definition importFields (b0 : jobject) : M ResourceData unit :=
  v ← assertString (b0 !! "apppool_name"); SetField "name" (VString v);;
  v ← assertString (b0 !! "appapplication_name"); SetField "application" (VString v);;
  v ← assertString (b0 !! "appapplication_fqdn"); SetField "fqdn" (VString v);;
  v ← assertString (b0 !! "apppool_lb_mode"); SetField "lb_mode" (VString v);;
  state ← assertString (b0 !! "apppool_affinity_state");
  (if String.eqb state "0"
   then SetField "affinity_state" (VBool false)
   else
     SetField "affinity_state" (VBool true);;
     v ← assertString (b0 !! "apppool_affinity_session_time");
     SetField "affinity_session_duration" (VInt (Strconv.Atoi v)));;
  nodes ← assertString (b0 !! "apppool_best_active_nodes");
  if negb (String.eqb nodes "")
  then
    v ← assertString (b0 !! "apppool_best_active_nodes");
    SetField "best_active_nodes" (VInt (Strconv.Atoi v))
  else SetField "best_active_nodes" (VInt 0).

(** ImportState returns `([]*schema.ResourceData, error)`. *)
Definition resourceapplicationpoolImportState (s : SOLIDserver)
    : M ResourceData (option (list ResourceData) * option string) :=
  d ← get;
  let parameters := Url.Add "apppool_id" (Id d) ∅ in
  if Version s <? 710 then mret (None, Some ("SOLIDServer - " +:+ unsupported))
  else
    r ← Request s "get" "rest/app_pool_info" parameters;
    match r with
    | Response StatusCode buf =>
        match StatusCode =? 200, buf with
        | true, b0 :: _ => importFields b0;; d ← get; mret (Some [d], None)
        | _, _ =>
            d ← get;
            mret (None, Some ("SOLIDServer - Unable to find and import application pool (oid): "
                              +:+ Id d +:+ nl))
        end
    | TransportError err => mret (None, Some err)
    end.

End ApplicationPool.

(** ** The DNS forward zone resource *)

Module DNSForwardZone.
Import Diag.

Record ResourceData : Type := mkData {
  Id : string;
  dnsserver : string;
  dnsview : string;
  name : string;
  forward : string;
  forwarders : list string;
  class : string;
  class_parameters : gmap string string
}.

(** d.Set(key, value); a key outside the schema (ImportState writes
    "type") leaves the data as it is. *)
Definition writeField (key : string) (value : fieldval) (d : ResourceData) : ResourceData :=
  let '(mkData id srv view nm fwd fwds cls params) := d in
  match value with
  | VString v =>
      if String.eqb key "dnsserver" then mkData id v view nm fwd fwds cls params
      else if String.eqb key "dnsview" then mkData id srv v nm fwd fwds cls params
      else if String.eqb key "name" then mkData id srv view v fwd fwds cls params
      else if String.eqb key "forward" then mkData id srv view nm v fwds cls params
      else if String.eqb key "class" then mkData id srv view nm fwd fwds v params
      else d
  | VList v =>
      if String.eqb key "forwarders" then mkData id srv view nm fwd v cls params
      else d
  | VMap v =>
      if String.eqb key "class_parameters" then mkData id srv view nm fwd fwds cls v
      else d
  | _ => d
  end.

Definition SetField (key : string) (value : fieldval) : M ResourceData unit :=
  modify (writeField key value).

Definition withId (v : string) (d : ResourceData) : ResourceData :=
  mkData v (dnsserver d) (dnsview d) (name d) (forward d) (forwarders d)
    (class d) (class_parameters d).

Definition SetId (v : string) : M ResourceData unit := modify (withId v).

(** `fwdList := ""; for _, fwd := range toStringArray(...) { fwdList += fwd + ";" }` *)
Definition fwdList (forwarders : list string) : string :=
  fold_left (fun acc fwd => acc +:+ (fwd +:+ ";")) (toStringArray forwarders) "".

(** `toStringArrayInterface(strings.Split(strings.TrimSuffix(x, ";"), ";"))` *)
Definition splitForwarders (x : string) : list string :=
  toStringArrayInterface (GoStrings.Split (GoStrings.TrimSuffix x ";") ";").

Definition createParameters (d : ResourceData) : Url.Values :=
  let parameters : Url.Values := ∅ in
  let parameters := Url.Add "add_flag" "new_only" parameters in
  let parameters := Url.Add "dns_name" (dnsserver d) parameters in
  let parameters :=
    if negb (String.eqb (dnsview d) "#")
    then Url.Add "dnsview_name" (dnsview d) parameters
    else parameters in
  let parameters := Url.Add "dnszone_name" (name d) parameters in
  let parameters := Url.Add "dnszone_type" "forward" parameters in
  let parameters := Url.Add "dnszone_class_name" (class d) parameters in
  let parameters := Url.Add "dnszone_forward" (GoStrings.ToLower (forward d)) parameters in
  let parameters := Url.Add "dnszone_forwarders" (fwdList (forwarders d)) parameters in
  let classParameters := urlfromclassparams (class_parameters d) in
  Url.Add "dnszone_class_parameters" (Url.Encode classParameters) parameters.

Definition updateParameters (d : ResourceData) : Url.Values :=
  let parameters : Url.Values := ∅ in
  let parameters := Url.Add "dnszone_id" (Id d) parameters in
  let parameters := Url.Add "add_flag" "edit_only" parameters in
  let parameters := Url.Add "dnszone_class_name" (class d) parameters in
  let parameters := Url.Add "dnszone_forward" (GoStrings.ToLower (forward d)) parameters in
  let parameters := Url.Add "dnszone_forwarders" (fwdList (forwarders d)) parameters in
  let classParameters := urlfromclassparams (class_parameters d) in
  Url.Add "dnszone_class_parameters" (Url.Encode classParameters) parameters.

Definition checkAnswer (verbing : string) (StatusCode : Z) (buf : list jobject)
    : M ResourceData Diagnostics :=
  let failure : M ResourceData Diagnostics :=
    d ← get;
    match buf with
    | b0 :: _ =>
        match asString (b0 !! "errmsg") with
        | Some errMsg =>
            mret (Errorf ("Unable to " +:+ verbing +:+ " DNS forward zone: "
                          +:+ name d +:+ " (" +:+ errMsg +:+ ")"))
        | None =>
            mret (Errorf ("Unable to " +:+ verbing +:+ " DNS forward zone: "
                          +:+ name d +:+ nl))
        end
    | [] =>
        mret (Errorf ("Unable to " +:+ verbing +:+ " DNS forward zone: "
                      +:+ name d +:+ nl))
    end in
  match (StatusCode =? 200) || (StatusCode =? 201), buf with
  | true, b0 :: _ =>
      match asString (b0 !! "ret_oid") with
      | Some oid => SetId oid;; mret []
      | None => failure
      end
  | _, _ => failure
  end.

Definition resourcednsforwardzoneCreate (s : SOLIDserver) : M ResourceData Diagnostics :=
  d ← get;
  let parameters := createParameters d in
  r ← Request s "post" "rest/dns_zone_add" parameters;
  match r with
  | Response StatusCode buf => checkAnswer "create" StatusCode buf
  | TransportError err => mret (FromErr (Some err))
  end.

Definition resourcednsforwardzoneUpdate (s : SOLIDserver) : M ResourceData Diagnostics :=
  d ← get;
  let parameters := updateParameters d in
  r ← Request s "put" "rest/dns_zone_add" parameters;
  match r with
  | Response StatusCode buf => checkAnswer "update" StatusCode buf
  | TransportError err => mret (FromErr (Some err))
  end.

Definition resourcednsforwardzoneDelete (s : SOLIDserver) : M ResourceData Diagnostics :=
  d ← get;
  let parameters := Url.Add "dnszone_id" (Id d) ∅ in
  r ← Request s "delete" "rest/dns_zone_delete" parameters;
  match r with
  | Response StatusCode buf =>
      if negb (StatusCode =? 200) && negb (StatusCode =? 204)
      then
        match buf with
        | b0 :: _ =>
            match asString (b0 !! "errmsg") with
            | Some errMsg =>
                mret (Errorf ("Unable to delete DNS forward zone: "
                              +:+ name d +:+ " (" +:+ errMsg +:+ ")"))
            | None => mret (Errorf ("Unable to delete DNS forward zone: " +:+ name d))
            end
        | [] => mret (Errorf ("Unable to delete DNS forward zone: " +:+ name d))
        end
      else SetId "";; mret []
  | TransportError err => mret (FromErr (Some err))
  end.

(** The loop over the local class parameters: `rv[0]` panics on an empty
    slice. *)
Definition computeClassParameters (currentClassParameters : gmap string string)
    (retrievedClassParameters : Url.Values) : M ResourceData (gmap string string) :=
  map_fold
    (fun ck _ (acc : M ResourceData (gmap string string)) =>
       computedClassParameters ← acc;
       match retrievedClassParameters !! ck with
       | Some (rv0 :: _) => mret (<[ck := rv0]> computedClassParameters)
       | Some [] => panic
       | None => mret (<[ck := ""]> computedClassParameters)
       end)
    (mret ∅) currentClassParameters.

(** "Updating local class_parameters", the same statements in Read and
    ImportState. *)
Definition updateClassParameters (b0 : jobject) : M ResourceData unit :=
  d ← get;
  let currentClassParameters := class_parameters d in
  query ← assertString (b0 !! "dnszone_class_parameters");
  let retrievedClassParameters := Url.ParseQuery query in
  let retrievedClassParameters :=
    match retrievedClassParameters !! "dnsptr" with
    | Some _ => delete "dnsptr" retrievedClassParameters
    | None => retrievedClassParameters
    end in
  computedClassParameters ← computeClassParameters currentClassParameters retrievedClassParameters;
  SetField "class_parameters" (VMap computedClassParameters).

(** "Updating forward mode" and "Updating forwarder information" *)
Definition updateForward (b0 : jobject) : M ResourceData unit :=
  mode ← assertString (b0 !! "dnszone_forward");
  (if String.eqb mode ""
   then SetField "forward" (VString "none")
   else
     v ← assertString (b0 !! "dnszone_forward");
     SetField "forward" (VString (GoStrings.ToLower v)));;
  fwds ← assertString (b0 !! "dnszone_forwarders");
  if negb (String.eqb fwds "")
  then
    v ← assertString (b0 !! "dnszone_forwarders");
    SetField "forwarders" (VList (splitForwarders v))
  else mret tt.

Definition readFields (b0 : jobject) : M ResourceData unit :=
  v ← assertString (b0 !! "dns_name"); SetField "dnsserver" (VString v);;
  v ← assertString (b0 !! "dnsview_name"); SetField "dnsview" (VString v);;
  v ← assertString (b0 !! "dnszone_name"); SetField "name" (VString v);;
  updateForward b0;;
  v ← assertString (b0 !! "dnszone_class_name"); SetField "class" (VString v);;
  updateClassParameters b0.

Definition resourcednsforwardzoneRead (s : SOLIDserver) : M ResourceData Diagnostics :=
  d ← get;
  let parameters := Url.Add "dnszone_id" (Id d) ∅ in
  r ← Request s "get" "rest/dns_zone_info" parameters;
  match r with
  | Response StatusCode buf =>
      match StatusCode =? 200, buf with
      | true, b0 :: _ => readFields b0;; mret []
      | _, _ =>
          d ← get;
          mret (Errorf ("Unable to find DNS forward zone: " +:+ name d +:+ nl))
      end
  | TransportError err => mret (FromErr (Some err))
  end.

Definition importFields (b0 : jobject) : M ResourceData unit :=
  v ← assertString (b0 !! "dns_name"); SetField "dnsserver" (VString v);;
  v ← assertString (b0 !! "dnsview_name"); SetField "dnsview" (VString v);;
  v ← assertString (b0 !! "dnszone_name"); SetField "name" (VString v);;
  v ← assertString (b0 !! "dnszone_type"); SetField "type" (VString v);;
  updateForward b0;;
  v ← assertString (b0 !! "dnszone_class_name"); SetField "class" (VString v);;
  updateClassParameters b0.

Definition resourcednsforwardzoneImportState (s : SOLIDserver)
    : M ResourceData (option (list ResourceData) * option string) :=
  d ← get;
  let parameters := Url.Add "dnszone_id" (Id d) ∅ in
  r ← Request s "get" "rest/dns_zone_info" parameters;
  match r with
  | Response StatusCode buf =>
      match StatusCode =? 200, buf with
      | true, b0 :: _ => importFields b0;; d ← get; mret (Some [d], None)
      | _, _ =>
          d ← get;
          mret (None, Some ("SOLIDServer - Unable to find and import DNS forward zone (oid): "
                            +:+ Id d +:+ nl))
      end
  | TransportError err => mret (None, Some err)
  end.

End DNSForwardZone.

(** ** The IP/MAC association resource *)

Module IPMAC.
Import Diag.

Record ResourceData : Type := mkData {
  Id : string;
  space : string;
  address : string;
  mac : string
}.

Definition withId (v : string) (d : ResourceData) : ResourceData :=
  mkData v (space d) (address d) (mac d).

Definition SetId (v : string) : M ResourceData unit := modify (withId v).

(** "Building parameters" in Create *)
Definition createParameters (d : ResourceData) : Url.Values :=
  let parameters : Url.Values := ∅ in
  let parameters := Url.Add "site_name" (space d) parameters in
  let parameters := Url.Add "add_flag" "edit_only" parameters in
  let parameters := Url.Add "hostaddr" (address d) parameters in
  let parameters := Url.Add "mac_addr" (GoStrings.ToLower (mac d)) parameters in
  Url.Add "keep_class_parameters" "1" parameters.

Definition resourceipmacCreate (s : SOLIDserver) : M ResourceData Diagnostics :=
  d ← get;
  let parameters := createParameters d in
  r ← Request s "put" "rest/ip_add" parameters;
  match r with
  | Response StatusCode buf =>
      match (StatusCode =? 200) || (StatusCode =? 201), buf with
      | true, b0 :: _ =>
          match asString (b0 !! "ret_oid") with
          | Some oid => SetId oid;; mret []
          | None =>
              (* leaves `if err == nil { ... }` and reaches the last
                 statement, `return diag.FromErr(err)`, with err == nil *)
              mret (FromErr None)
          end
      | _, _ =>
          mret (Errorf ("Failed to create IP MAC association between "
                        +:+ address d +:+ " and " +:+ mac d +:+ nl))
      end
  | TransportError err => mret (FromErr (Some err))
  end.

(** "Building parameters" in Delete: the address is kept and its MAC
    address emptied. *)
Definition deleteParameters (d : ResourceData) : Url.Values :=
  let parameters : Url.Values := ∅ in
  let parameters := Url.Add "site_name" (space d) parameters in
  let parameters := Url.Add "add_flag" "edit_only" parameters in
  let parameters := Url.Add "hostaddr" (address d) parameters in
  let parameters := Url.Add "mac_addr" "" parameters in
  Url.Add "keep_class_parameters" "1" parameters.

Definition resourceipmacDelete (s : SOLIDserver) : M ResourceData Diagnostics :=
  d ← get;
  let parameters := deleteParameters d in
  r ← Request s "put" "rest/ip_add" parameters;
  match r with
  | Response StatusCode buf =>
      match (StatusCode =? 200) || (StatusCode =? 201), buf with
      | true, b0 :: _ =>
          match asString (b0 !! "ret_oid") with
          | Some oid => SetId "";; mret []
          | None => mret (FromErr None)
          end
      | _, _ =>
          mret (Errorf ("Failed to delete IP MAC association between "
                        +:+ address d +:+ " and " +:+ mac d +:+ nl))
      end
  | TransportError err => mret (FromErr (Some err))
  end.

Definition resourceipmacRead (s : SOLIDserver) : M ResourceData Diagnostics :=
  d ← get;
  let parameters := Url.Add "ip_id" (Id d) ∅ in
  r ← Request s "get" "rest/ip_address_info" parameters;
  match r with
  | Response StatusCode buf =>
      (* "Unset local ID", then the last statement with err == nil *)
      let unset : M ResourceData Diagnostics := SetId "";; mret (FromErr None) in
      match (StatusCode =? 200) || (StatusCode =? 201), buf with
      | true, b0 :: _ =>
          match asString (b0 !! "mac_addr") with
          | Some ipMac =>
              if String.eqb (GoStrings.ToLower ipMac) (GoStrings.ToLower (mac d))
              then mret []
              else unset
          | None => unset
          end
      | _, _ => unset
      end
  | TransportError err => mret (FromErr (Some err))
  end.

End IPMAC.

(** ** Vocabulary of the statements *)

(** The string under [key] in the first element of buf, if there is one. *)
Definition firstString (buf : list jobject) (key : string) : option string :=
  b0 ← head buf; asString (b0 !! key).

(** The id a Create or Update answer carries: status 200 or 201 and a
    string "ret_oid" in the first element. *)
Definition createdId (StatusCode : Z) (buf : list jobject) : option string :=
  if (StatusCode =? 200) || (StatusCode =? 201) then firstString buf "ret_oid" else None.

(** An appliance that gives the same answer to every call. *)
Definition answering (version : Z) (r : HTTPResult) : SOLIDserver :=
  mkSOLIDserver version (fun _ _ _ => r).

(** The keys that Read and ImportState of an application pool assert to be
    strings on the first element [b0]: the session time is looked at only
    when the affinity state is not "0". *)
Definition apppoolAssertedKeys (b0 : jobject) : list string :=
  ["apppool_name"; "appapplication_name"; "appapplication_fqdn"; "apppool_lb_mode";
   "apppool_affinity_state"; "apppool_best_active_nodes"]
  ++ match asString (b0 !! "apppool_affinity_state") with
     | Some state => if String.eqb state "0" then [] else ["apppool_affinity_session_time"]
     | None => []
     end.


(** The keys Read of a DNS forward zone asserts to be strings; ImportState
    asserts "dnszone_type" too. *)
Definition dnszoneReadKeys : list string :=
  ["dns_name"; "dnsview_name"; "dnszone_name"; "dnszone_forward"; "dnszone_forwarders";
   "dnszone_class_name"; "dnszone_class_parameters"].

Definition dnszoneImportKeys : list string := "dnszone_type" :: dnszoneReadKeys.

(** The first value of [key] in a url.Values, "" without the key. *)
Definition firstValue (v : Url.Values) (key : string) : string :=
  match v !! key with
  | Some (x :: _) => x
  | _ => ""
  end.

(** Whether Read of the IP/MAC association finds its object in the answer:
    status 200 or 201 and, in the first element, a string "mac_addr" equal
    to the local MAC address up to the case of the letters. *)
Definition ipmacResolved (d : IPMAC.ResourceData) (StatusCode : Z) (buf : list jobject) : bool :=
  ((StatusCode =? 200) || (StatusCode =? 201)) &&
  match firstString buf "mac_addr" with
  | Some ipMac => String.eqb (GoStrings.ToLower ipMac) (GoStrings.ToLower (IPMAC.mac d))
  | None => false
  end.

(** The string under [key] in [b0], "" when there is none. *)
Definition stringAt (b0 : jobject) (key : string) : string :=
  default "" (asString (b0 !! key)).

(** The class parameters as C8 words them: the keys of the local map, each
    with the first value retrieved for it once "dnsptr" is removed, and
    with "" when no value was retrieved. *)
Definition expectedClassParameters (current : gmap string string) (query : string)
    : gmap string string :=
  map_imap (fun key _ => Some (firstValue (delete "dnsptr" (Url.ParseQuery query)) key)) current.

(** The data that Read and ImportState of a DNS forward zone leave for the
    first element [b0]. *)
Definition dnszoneReadResult (b0 : jobject) (d : DNSForwardZone.ResourceData)
    : DNSForwardZone.ResourceData :=
  DNSForwardZone.mkData (DNSForwardZone.Id d)
    (stringAt b0 "dns_name") (stringAt b0 "dnsview_name") (stringAt b0 "dnszone_name")
    (if String.eqb (stringAt b0 "dnszone_forward") "" then "none"
     else GoStrings.ToLower (stringAt b0 "dnszone_forward"))
    (if String.eqb (stringAt b0 "dnszone_forwarders") "" then DNSForwardZone.forwarders d
     else DNSForwardZone.splitForwarders (stringAt b0 "dnszone_forwarders"))
    (stringAt b0 "dnszone_class_name")
    (expectedClassParameters (DNSForwardZone.class_parameters d)
       (stringAt b0 "dnszone_class_parameters")).

(** The data that Read of an application pool leaves for [b0]. *)
Definition apppoolReadResult (b0 : jobject) (d : ApplicationPool.ResourceData)
    : ApplicationPool.ResourceData :=
  let state := stringAt b0 "apppool_affinity_state" in
  let nodes := stringAt b0 "apppool_best_active_nodes" in
  ApplicationPool.mkData (ApplicationPool.Id d)
    (stringAt b0 "appapplication_name") (stringAt b0 "appapplication_fqdn")
    (stringAt b0 "apppool_name") (ApplicationPool.ip_version d)
    (stringAt b0 "apppool_lb_mode")
    (negb (String.eqb state "0"))
    (if String.eqb state "0" then ApplicationPool.affinity_session_duration d
     else Strconv.Atoi (stringAt b0 "apppool_affinity_session_time"))
    (if String.eqb nodes "" then ApplicationPool.best_active_nodes d else Strconv.Atoi nodes).

(** The data that ImportState of an application pool leaves for [b0]: the
    affinity is not written. *)
Definition apppoolImportResult (b0 : jobject) (d : ApplicationPool.ResourceData)
    : ApplicationPool.ResourceData :=
  let state := stringAt b0 "apppool_affinity_state" in
  let nodes := stringAt b0 "apppool_best_active_nodes" in
  ApplicationPool.mkData (ApplicationPool.Id d)
    (stringAt b0 "appapplication_name") (stringAt b0 "appapplication_fqdn")
    (stringAt b0 "apppool_name") (ApplicationPool.ip_version d)
    (stringAt b0 "apppool_lb_mode")
    (ApplicationPool.affinity d)
    (if String.eqb state "0" then ApplicationPool.affinity_session_duration d
     else Strconv.Atoi (stringAt b0 "apppool_affinity_session_time"))
    (if String.eqb nodes "" then 0 else Strconv.Atoi nodes).

(** A handler step that leaves the projection [P] of the data as it was,
    whatever its outcome. *)
Definition preserves {D X A : Type} (P : D -> X) (m : M D A) : Prop :=
  forall w, P (data (fst (m w))) = P (data w).

(** A handler step that sends no request, whatever its outcome. *)
Definition sendsNothing {D A : Type} (m : M D A) : Prop :=
  forall w, sent (fst (m w)) = sent w.

(** The answer [b0] carries under [answerKey] the first value that was
    sent under [parameterKey]. *)
Definition carries (b0 : jobject) (answerKey : string)
    (sentParameters : Url.Values) (parameterKey : string) : Prop :=
  asString (b0 !! answerKey) = Some (firstValue sentParameters parameterKey).

(** An answer of rest/app_pool_info that gives back what Create sent for
    the data [d]. *)
Definition poolAnswerEchoes (b0 : jobject) (d : ApplicationPool.ResourceData) : Prop :=
  let sentParameters := ApplicationPool.createParameters d in
  carries b0 "apppool_name" sentParameters "name" /\
  carries b0 "appapplication_name" sentParameters "appapplication_name" /\
  carries b0 "appapplication_fqdn" sentParameters "appapplication_fqdn" /\
  carries b0 "apppool_lb_mode" sentParameters "lb_mode" /\
  carries b0 "apppool_affinity_state" sentParameters "affinity_state" /\
  carries b0 "apppool_affinity_session_time" sentParameters "affinity_session_time" /\
  carries b0 "apppool_best_active_nodes" sentParameters "best_active_nodes".


(** The values of a Go int on a 64-bit platform. *)
Definition inIntRange (i : Z) : Prop := Strconv.minInt <= i <= Strconv.maxInt.

(** Sample data for the closed instances. *)
Definition poolAnswer : jobject :=
  list_to_map
    [("apppool_name", JString "pool"); ("appapplication_name", JString "app");
     ("appapplication_fqdn", JString "app.example.org"); ("apppool_lb_mode", JString "weighted");
     ("apppool_affinity_state", JString "0"); ("apppool_best_active_nodes", JString "")].

Definition zoneAnswer : jobject :=
  list_to_map
    [("dns_name", JString "ns1"); ("dnsview_name", JString "#");
     ("dnszone_name", JString "example.org"); ("dnszone_type", JString "forward");
     ("dnszone_forward", JString "FIRST");
     ("dnszone_forwarders", JString "192.0.2.1;192.0.2.2;");
     ("dnszone_class_name", JString "cls");
     ("dnszone_class_parameters", JString "site=lyon&site=nice&dnsptr=1&other=x")].

Definition poolAppliance : SOLIDserver := answering 710 (Response 200 [poolAnswer]).

Definition echoPoolAnswer : jobject :=
  list_to_map
    [("apppool_name", JString "pool"); ("appapplication_name", JString "app");
     ("appapplication_fqdn", JString "app.example.org"); ("apppool_lb_mode", JString "latency");
     ("apppool_affinity_state", JString "1"); ("apppool_affinity_session_time", JString "300");
     ("apppool_best_active_nodes", JString "2")].

Definition echoPoolAppliance : SOLIDserver := answering 710 (Response 200 [echoPoolAnswer]).



Definition unreachableAppliance : SOLIDserver :=
  answering 710 (TransportError "dial tcp: connection refused").

Definition macAppliance : SOLIDserver :=
  answering 710 (Response 200 [{["mac_addr" := JString "aa:bb:cc:dd:ee:ff"]}]).

Definition ptrZone : DNSForwardZone.ResourceData :=
  DNSForwardZone.mkData "5" "ns1" "#" "example.org" "first" [] "cls"
    (<["dnsptr" := "1"]> (<["site" := "paris"]> ∅)).

Definition zoneAppliance : SOLIDserver := answering 710 (Response 200 [zoneAnswer]).

Definition refusingAppliance : SOLIDserver :=
  answering 710 (Response 500 [{["errmsg" := JString "boom"]}]).

Definition acceptingAppliance : SOLIDserver :=
  answering 710 (Response 201 [{["ret_oid" := JString "77"]}]).

Definition notFoundAppliance : SOLIDserver := answering 710 (Response 404 []).

Definition noContentAppliance : SOLIDserver := answering 710 (Response 204 []).

Definition oldAppliance : SOLIDserver := answering 700 (Response 200 []).

Definition samplePool : ApplicationPool.ResourceData :=
  ApplicationPool.mkData "12" "app" "app.example.org" "pool" "ipv4" "latency" true 300 2.

Definition sampleZone : DNSForwardZone.ResourceData :=
  DNSForwardZone.mkData "5" "ns1" "#" "example.org" "Only" ["192.0.2.1"; "192.0.2.2"] "cls"
    (<["site" := "paris"]> ∅).

Definition sampleIPMAC : IPMAC.ResourceData :=
  IPMAC.mkData "9" "Local" "10.0.0.1" "AA:BB:CC:DD:EE:FF".

(** * Properties *)

(** ** Equations of the handler monad *)

Section monad_equations.
Context {D : Type}.
Implicit Types (w : World D).

Lemma bind_unfold {A B} (m : M D A) (f : A -> M D B) w :
  (m ≫= f) w = match m w with
               | (w', Returned a) => f a w'
               | (w', Panicked) => (w', Panicked)
               end.
Proof. reflexivity. Qed.

Lemma bind_ret {A B} (a : A) (f : A -> M D B) w : (mret a ≫= f) w = f a w.
Proof. reflexivity. Qed.

Lemma bind_get {B} (f : D -> M D B) w : (get ≫= f) w = f (data w) w.
Proof. reflexivity. Qed.

Lemma bind_modify {B} (g : D -> D) (f : unit -> M D B) w :
  (modify g ≫= f) w = f tt (mkWorld (g (data w)) (sent w)).
Proof. reflexivity. Qed.

Lemma bind_panic {A B} (f : A -> M D B) w : (@panic D A ≫= f) w = (w, Panicked).
Proof. reflexivity. Qed.

Lemma bind_Request {B} s method service parameters (f : HTTPResult -> M D B) w :
  (Request s method service parameters ≫= f) w =
  f (respond s method service parameters)
    (mkWorld (data w) (sent w ++ [mkRequest method service parameters])).
Proof. reflexivity. Qed.

Lemma bind_assoc {A B C} (m : M D A) (g : A -> M D B) (f : B -> M D C) w :
  ((m ≫= g) ≫= f) w = (m ≫= fun a => g a ≫= f) w.
Proof.
  rewrite !bind_unfold. destruct (m w) as [w' [a|]]; [|reflexivity].
  now rewrite bind_unfold.
Qed.

Lemma ret_unfold {A} (a : A) w : (mret a : M D A) w = (w, Returned a).
Proof. reflexivity. Qed.

Lemma bind_assertString_Some {B} x v (f : string -> M D B) w :
  asString x = Some v -> (assertString x ≫= f) w = f v w.
Proof. intros E. unfold assertString. now rewrite E. Qed.

Lemma bind_assertString_None {B} x (f : string -> M D B) w :
  asString x = None -> (assertString x ≫= f) w = (w, Panicked).
Proof. intros E. unfold assertString. now rewrite E. Qed.

End monad_equations.

Create Rewrite HintDb handler.

#[global] Hint Rewrite @bind_ret @bind_get @bind_modify @bind_panic @bind_Request
  @ret_unfold : handler.

Lemma version_guard_closed s : Version s < 710 -> (Version s <? 710) = true.
Proof. intros; now apply Z.ltb_lt. Qed.

Lemma version_guard_open s : 710 <= Version s -> (Version s <? 710) = false.
Proof. intros; now apply Z.ltb_ge. Qed.

Ltac handler_step := autorewrite with handler; cbn [data sent].

(** ** Equations of url.Values *)

Section url_values.
Implicit Types (m : Url.Values) (key value : string).

Lemma Add_empty key value : Url.Add key value ∅ = <[key := [value]]> ∅.
Proof. unfold Url.Add. now rewrite lookup_empty. Qed.

Lemma insert_Add_ne key key' value x m :
  key <> key' -> <[key' := x]> (Url.Add key value m) = Url.Add key value (<[key' := x]> m).
Proof.
  intros N. unfold Url.Add. rewrite lookup_insert_ne by congruence.
  apply insert_insert_ne. congruence.
Qed.

Lemma delete_Add_ne key key' value m :
  key <> key' -> delete key' (Url.Add key value m) = Url.Add key value (delete key' m).
Proof.
  intros N. unfold Url.Add. rewrite lookup_delete_ne by congruence.
  apply delete_insert_ne. congruence.
Qed.

Lemma delete_Add_eq key value m : delete key (Url.Add key value m) = delete key m.
Proof. unfold Url.Add. apply delete_insert_eq. Qed.

Lemma lookup_Add_eq key value m :
  Url.Add key value m !! key = Some (default [] (m !! key) ++ [value])%list.
Proof. unfold Url.Add. apply lookup_insert_eq. Qed.

Lemma lookup_Add_ne key key' value m :
  key <> key' -> Url.Add key value m !! key' = m !! key'.
Proof. intros N. unfold Url.Add. now apply lookup_insert_ne. Qed.

Lemma Add_fresh key value m :
  m !! key = None -> Url.Add key value m = <[key := [value]]> m.
Proof. intros E. unfold Url.Add. now rewrite E. Qed.

End url_values.

Ltac distinct_keys := let E := fresh in intros E; discriminate E.

Ltac fresh_key :=
  rewrite ?lookup_Add_ne, ?lookup_insert_ne by distinct_keys; apply lookup_empty.

(** ** The answer check of Create and Update *)

Section answer_check.
Import Diag.

Lemma apppool_checkAnswer verbing st buf w :
  ApplicationPool.checkAnswer verbing st buf w =
  match createdId st buf with
  | Some oid => (mkWorld (ApplicationPool.withId oid (data w)) (sent w), Returned [])
  | None =>
      (w, Returned [match firstString buf "errmsg" with
                    | Some errMsg => "Unable to " +:+ verbing +:+ " application pool: "
                                     +:+ ApplicationPool.name (data w) +:+ " (" +:+ errMsg +:+ ")"
                    | None => "Unable to " +:+ verbing +:+ " application pool: "
                              +:+ ApplicationPool.name (data w) +:+ nl
                    end])
  end.
Proof.
  unfold ApplicationPool.checkAnswer, createdId, firstString, ApplicationPool.SetId.
  destruct buf as [|b0 rest]; cbn [head mbind option_bind].
  - destruct ((st =? 200) || (st =? 201)); handler_step; reflexivity.
  - destruct ((st =? 200) || (st =? 201)); destruct (asString (b0 !! "ret_oid"));
      destruct (asString (b0 !! "errmsg")); handler_step; reflexivity.
Qed.

Lemma dnszone_checkAnswer verbing st buf w :
  DNSForwardZone.checkAnswer verbing st buf w =
  match createdId st buf with
  | Some oid => (mkWorld (DNSForwardZone.withId oid (data w)) (sent w), Returned [])
  | None =>
      (w, Returned [match firstString buf "errmsg" with
                    | Some errMsg => "Unable to " +:+ verbing +:+ " DNS forward zone: "
                                     +:+ DNSForwardZone.name (data w) +:+ " (" +:+ errMsg +:+ ")"
                    | None => "Unable to " +:+ verbing +:+ " DNS forward zone: "
                              +:+ DNSForwardZone.name (data w) +:+ nl
                    end])
  end.
Proof.
  unfold DNSForwardZone.checkAnswer, createdId, firstString, DNSForwardZone.SetId.
  destruct buf as [|b0 rest]; cbn [head mbind option_bind].
  - destruct ((st =? 200) || (st =? 201)); handler_step; reflexivity.
  - destruct ((st =? 200) || (st =? 201)); destruct (asString (b0 !! "ret_oid"));
      destruct (asString (b0 !! "errmsg")); handler_step; reflexivity.
Qed.

Lemma apppool_create_run d s st buf :
  710 <= Version s ->
  respond s "post" "rest/app_pool_add" (ApplicationPool.createParameters d) = Response st buf ->
  run (ApplicationPool.resourceapplicationpoolCreate s) d =
  ApplicationPool.checkAnswer "create" st buf
    (mkWorld d [mkRequest "post" "rest/app_pool_add" (ApplicationPool.createParameters d)]).
Proof.
  intros V R. unfold run, ApplicationPool.resourceapplicationpoolCreate.
  handler_step. rewrite (version_guard_open _ V). handler_step. now rewrite R.
Qed.

Lemma apppool_update_run d s st buf :
  710 <= Version s ->
  respond s "put" "rest/app_pool_add" (ApplicationPool.updateParameters d) = Response st buf ->
  run (ApplicationPool.resourceapplicationpoolUpdate s) d =
  ApplicationPool.checkAnswer "update" st buf
    (mkWorld d [mkRequest "put" "rest/app_pool_add" (ApplicationPool.updateParameters d)]).
Proof.
  intros V R. unfold run, ApplicationPool.resourceapplicationpoolUpdate.
  handler_step. rewrite (version_guard_open _ V). handler_step. now rewrite R.
Qed.

Lemma dnszone_create_run d s st buf :
  respond s "post" "rest/dns_zone_add" (DNSForwardZone.createParameters d) = Response st buf ->
  run (DNSForwardZone.resourcednsforwardzoneCreate s) d =
  DNSForwardZone.checkAnswer "create" st buf
    (mkWorld d [mkRequest "post" "rest/dns_zone_add" (DNSForwardZone.createParameters d)]).
Proof.
  intros R. unfold run, DNSForwardZone.resourcednsforwardzoneCreate.
  handler_step. now rewrite R.
Qed.

Lemma dnszone_update_run d s st buf :
  respond s "put" "rest/dns_zone_add" (DNSForwardZone.updateParameters d) = Response st buf ->
  run (DNSForwardZone.resourcednsforwardzoneUpdate s) d =
  DNSForwardZone.checkAnswer "update" st buf
    (mkWorld d [mkRequest "put" "rest/dns_zone_add" (DNSForwardZone.updateParameters d)]).
Proof.
  intros R. unfold run, DNSForwardZone.resourcednsforwardzoneUpdate.
  handler_step. now rewrite R.
Qed.

(** On an answer without a usable id (an empty array, a first element
    without a string "ret_oid", a status other than 200 and 201) the Create
    and Update handlers of the application pool and of the DNS forward zone
    leave the data as it is and return one error diagnostic. *)
Lemma checked_handlers_reject_malformed s st buf pool zone :
  createdId st buf = None ->
  (710 <= Version s ->
   respond s "post" "rest/app_pool_add" (ApplicationPool.createParameters pool) = Response st buf ->
   exists msg w, run (ApplicationPool.resourceapplicationpoolCreate s) pool = (w, Returned [msg])
                 /\ data w = pool) /\
  (710 <= Version s ->
   respond s "put" "rest/app_pool_add" (ApplicationPool.updateParameters pool) = Response st buf ->
   exists msg w, run (ApplicationPool.resourceapplicationpoolUpdate s) pool = (w, Returned [msg])
                 /\ data w = pool) /\
  (respond s "post" "rest/dns_zone_add" (DNSForwardZone.createParameters zone) = Response st buf ->
   exists msg w, run (DNSForwardZone.resourcednsforwardzoneCreate s) zone = (w, Returned [msg])
                 /\ data w = zone) /\
  (respond s "put" "rest/dns_zone_add" (DNSForwardZone.updateParameters zone) = Response st buf ->
   exists msg w, run (DNSForwardZone.resourcednsforwardzoneUpdate s) zone = (w, Returned [msg])
                 /\ data w = zone).
Proof.
  intros E. repeat split.
  - intros V R. rewrite (apppool_create_run _ _ _ _ V R), apppool_checkAnswer, E. eauto.
  - intros V R. rewrite (apppool_update_run _ _ _ _ V R), apppool_checkAnswer, E. eauto.
  - intros R. rewrite (dnszone_create_run _ _ _ _ R), dnszone_checkAnswer, E. eauto.
  - intros R. rewrite (dnszone_update_run _ _ _ _ R), dnszone_checkAnswer, E. eauto.
Qed.

Lemma ipmac_create_run d s st buf :
  respond s "put" "rest/ip_add" (IPMAC.createParameters d) = Response st buf ->
  run (IPMAC.resourceipmacCreate s) d =
  let w := mkWorld d [mkRequest "put" "rest/ip_add" (IPMAC.createParameters d)] in
  match (st =? 200) || (st =? 201), buf with
  | true, b0 :: _ =>
      match asString (b0 !! "ret_oid") with
      | Some oid => (mkWorld (IPMAC.withId oid d) (sent w), Returned [])
      | None => (w, Returned [])
      end
  | _, _ => (w, Returned ["Failed to create IP MAC association between "
                          +:+ IPMAC.address d +:+ " and " +:+ IPMAC.mac d +:+ nl])
  end.
Proof.
  intros R. unfold run, IPMAC.resourceipmacCreate, IPMAC.SetId.
  handler_step. rewrite R.
  destruct ((st =? 200) || (st =? 201)); destruct buf as [|b0 rest]; try reflexivity.
  destruct (asString (b0 !! "ret_oid")); handler_step; reflexivity.
Qed.

End answer_check.

(** ** Create *)

(** C1, on the IP/MAC association: when the answer has status 200 or 201
    and a first element without a string "ret_oid", resourceipmacCreate
    returns nil diagnostics, a success, and leaves the id as it was. *)
Theorem ipmac_create_without_id_returns_nil d s st b0 rest :
  respond s "put" "rest/ip_add" (IPMAC.createParameters d) = Response st (b0 :: rest) ->
  st = 200 \/ st = 201 ->
  asString (b0 !! "ret_oid") = None ->
  run (IPMAC.resourceipmacCreate s) d =
  (mkWorld d [mkRequest "put" "rest/ip_add" (IPMAC.createParameters d)], Returned []).
Proof.
  intros R S E. rewrite (ipmac_create_run _ _ _ _ R). cbn zeta.
  replace ((st =? 200) || (st =? 201)) with true
    by (destruct S; subst; reflexivity).
  now rewrite E.
Qed.

Lemma ipmac_create_without_id_returns_nil_witness :
  run (IPMAC.resourceipmacCreate (answering 710 (Response 200 [∅]))) sampleIPMAC =
  (mkWorld sampleIPMAC [mkRequest "put" "rest/ip_add" (IPMAC.createParameters sampleIPMAC)],
   Returned []).
Proof.
  apply (ipmac_create_without_id_returns_nil sampleIPMAC (answering 710 (Response 200 [∅])) 200 ∅ []).
  - reflexivity.
  - left; reflexivity.
  - reflexivity.
Defined.

(** C4 as stated fails on the IP/MAC association: the answer has status
    500 and the errmsg "boom", and the diagnostic that resourceipmacCreate
    returns does not include it. *)
Lemma create_errmsg_counterexample :
  ~ (exists msg,
        snd (run (IPMAC.resourceipmacCreate refusingAppliance) sampleIPMAC) = Returned [msg]
        /\ GoStrings.Contains msg "boom" = true).
Proof.
  intros (msg & R & C). vm_compute in R. injection R as <-.
  vm_compute in C. discriminate.
Qed.

(** C4, amended: on an answer with status [st] and decoded body [buf],
    Create of the application pool (version 710 or later) and of the DNS
    forward zone stores the id and returns nil when the status is 200 or
    201 and the first element has a string "ret_oid"; otherwise it leaves
    the data and returns one error, with the "errmsg" of the first element
    when it is a string and the generic message when not.  Create of the
    IP/MAC association stores the id and returns nil in the same case, and
    returns its own message, without the errmsg, when the status is neither
    200 nor 201 or the array is empty. *)
Theorem create_answer_interpretation s st buf pool zone ipmac :
  (710 <= Version s ->
   respond s "post" "rest/app_pool_add" (ApplicationPool.createParameters pool) = Response st buf ->
   run (ApplicationPool.resourceapplicationpoolCreate s) pool =
   let requests := [mkRequest "post" "rest/app_pool_add" (ApplicationPool.createParameters pool)] in
   match createdId st buf with
   | Some oid => (mkWorld (ApplicationPool.withId oid pool) requests, Returned [])
   | None =>
       (mkWorld pool requests,
        Returned [match firstString buf "errmsg" with
                  | Some errMsg => "Unable to create application pool: "
                                   +:+ ApplicationPool.name pool +:+ " (" +:+ errMsg +:+ ")"
                  | None => "Unable to create application pool: "
                            +:+ ApplicationPool.name pool +:+ nl
                  end])
   end) /\
  (respond s "post" "rest/dns_zone_add" (DNSForwardZone.createParameters zone) = Response st buf ->
   run (DNSForwardZone.resourcednsforwardzoneCreate s) zone =
   let requests := [mkRequest "post" "rest/dns_zone_add" (DNSForwardZone.createParameters zone)] in
   match createdId st buf with
   | Some oid => (mkWorld (DNSForwardZone.withId oid zone) requests, Returned [])
   | None =>
       (mkWorld zone requests,
        Returned [match firstString buf "errmsg" with
                  | Some errMsg => "Unable to create DNS forward zone: "
                                   +:+ DNSForwardZone.name zone +:+ " (" +:+ errMsg +:+ ")"
                  | None => "Unable to create DNS forward zone: "
                            +:+ DNSForwardZone.name zone +:+ nl
                  end])
   end) /\
  (respond s "put" "rest/ip_add" (IPMAC.createParameters ipmac) = Response st buf ->
   let requests := [mkRequest "put" "rest/ip_add" (IPMAC.createParameters ipmac)] in
   match createdId st buf with
   | Some oid =>
       run (IPMAC.resourceipmacCreate s) ipmac =
       (mkWorld (IPMAC.withId oid ipmac) requests, Returned [])
   | None =>
       (st <> 200 /\ st <> 201) \/ buf = [] ->
       run (IPMAC.resourceipmacCreate s) ipmac =
       (mkWorld ipmac requests,
        Returned ["Failed to create IP MAC association between "
                  +:+ IPMAC.address ipmac +:+ " and " +:+ IPMAC.mac ipmac +:+ nl])
   end).
Proof.
  repeat split.
  - intros V R. rewrite (apppool_create_run _ _ _ _ V R), apppool_checkAnswer.
    cbn [data sent]. reflexivity.
  - intros R. rewrite (dnszone_create_run _ _ _ _ R), dnszone_checkAnswer.
    cbn [data sent]. reflexivity.
  - intros R. rewrite (ipmac_create_run _ _ _ _ R). unfold createdId, firstString.
    cbn zeta. destruct (Z.eqb_spec st 200) as [->|N1];
      [|destruct (Z.eqb_spec st 201) as [->|N2]]; cbn [orb].
    + destruct buf as [|b0 rest]; cbn [head mbind option_bind sent].
      * intros _; reflexivity.
      * destruct (asString (b0 !! "ret_oid")); [reflexivity|].
        intros [[? _]|?]; congruence.
    + destruct buf as [|b0 rest]; cbn [head mbind option_bind sent].
      * intros _; reflexivity.
      * destruct (asString (b0 !! "ret_oid")); [reflexivity|].
        intros [[_ ?]|?]; congruence.
    + intros _. reflexivity.
Qed.

Lemma create_answer_interpretation_witness :
  (run (ApplicationPool.resourceapplicationpoolCreate acceptingAppliance) samplePool =
   (mkWorld (ApplicationPool.withId "77" samplePool)
      [mkRequest "post" "rest/app_pool_add" (ApplicationPool.createParameters samplePool)],
    Returned []) /\
   run (DNSForwardZone.resourcednsforwardzoneCreate acceptingAppliance) sampleZone =
   (mkWorld (DNSForwardZone.withId "77" sampleZone)
      [mkRequest "post" "rest/dns_zone_add" (DNSForwardZone.createParameters sampleZone)],
    Returned []) /\
   run (IPMAC.resourceipmacCreate acceptingAppliance) sampleIPMAC =
   (mkWorld (IPMAC.withId "77" sampleIPMAC)
      [mkRequest "put" "rest/ip_add" (IPMAC.createParameters sampleIPMAC)],
    Returned [])) /\
  (run (ApplicationPool.resourceapplicationpoolCreate refusingAppliance) samplePool =
   (mkWorld samplePool
      [mkRequest "post" "rest/app_pool_add" (ApplicationPool.createParameters samplePool)],
    Returned ["Unable to create application pool: pool (boom)"]) /\
   run (DNSForwardZone.resourcednsforwardzoneCreate refusingAppliance) sampleZone =
   (mkWorld sampleZone
      [mkRequest "post" "rest/dns_zone_add" (DNSForwardZone.createParameters sampleZone)],
    Returned ["Unable to create DNS forward zone: example.org (boom)"]) /\
   run (IPMAC.resourceipmacCreate refusingAppliance) sampleIPMAC =
   (mkWorld sampleIPMAC
      [mkRequest "put" "rest/ip_add" (IPMAC.createParameters sampleIPMAC)],
    Returned ["Failed to create IP MAC association between 10.0.0.1 and AA:BB:CC:DD:EE:FF"
              +:+ nl])).
Proof.
  split.
  - destruct (create_answer_interpretation acceptingAppliance 201
                [{["ret_oid" := JString "77"]}] samplePool sampleZone sampleIPMAC)
      as (A & B & C).
    split; [|split].
    + apply A; [cbn; lia | reflexivity].
    + apply B; reflexivity.
    + apply C; reflexivity.
  - destruct (create_answer_interpretation refusingAppliance 500
                [{["errmsg" := JString "boom"]}] samplePool sampleZone sampleIPMAC)
      as (A & B & C).
    split; [|split].
    + apply A; [cbn; lia | reflexivity].
    + apply B; reflexivity.
    + apply C; [reflexivity | left; split; discriminate].
Defined.

(** ** The version guard of the application pool *)

(** C9 as stated fails on ImportState: below version 710 its error is not
    the message of the four other handlers. *)
Lemma version_guard_message_counterexample :
  ~ (exists r,
        snd (run (ApplicationPool.resourceapplicationpoolImportState
                    oldAppliance) samplePool) =
        Returned (r, Some "Object not supported in this SOLIDserver version")).
Proof. intros (r & R). vm_compute in R. discriminate. Qed.

(** C9, amended: below version 710 no application pool handler sends a
    request or changes the data; Create, Read, Update and Delete return the
    diagnostic "Object not supported in this SOLIDserver version", and
    ImportState returns nil and that message behind "SOLIDServer - ". *)
Theorem apppool_version_guard s d :
  Version s < 710 ->
  run (ApplicationPool.resourceapplicationpoolCreate s) d =
    (mkWorld d [], Returned ["Object not supported in this SOLIDserver version"]) /\
  run (ApplicationPool.resourceapplicationpoolRead s) d =
    (mkWorld d [], Returned ["Object not supported in this SOLIDserver version"]) /\
  run (ApplicationPool.resourceapplicationpoolUpdate s) d =
    (mkWorld d [], Returned ["Object not supported in this SOLIDserver version"]) /\
  run (ApplicationPool.resourceapplicationpoolDelete s) d =
    (mkWorld d [], Returned ["Object not supported in this SOLIDserver version"]) /\
  run (ApplicationPool.resourceapplicationpoolImportState s) d =
    (mkWorld d [],
     Returned (None, Some "SOLIDServer - Object not supported in this SOLIDserver version")).
Proof.
  intros V.
  unfold run, ApplicationPool.resourceapplicationpoolCreate,
    ApplicationPool.resourceapplicationpoolRead, ApplicationPool.resourceapplicationpoolUpdate,
    ApplicationPool.resourceapplicationpoolDelete,
    ApplicationPool.resourceapplicationpoolImportState.
  handler_step. rewrite (version_guard_closed _ V). repeat split.
Qed.

Lemma apppool_version_guard_witness :
  run (ApplicationPool.resourceapplicationpoolDelete oldAppliance) samplePool =
  (mkWorld samplePool [], Returned ["Object not supported in this SOLIDserver version"]).
Proof.
  apply (apppool_version_guard oldAppliance samplePool).
  cbn; lia.
Defined.

(** ** Read of an object that is not found *)

Section unresolved_read.
Import Diag.

Lemma apppool_read_unresolved d s st buf :
  710 <= Version s ->
  respond s "get" "rest/app_pool_info" (Url.Add "apppool_id" (ApplicationPool.Id d) ∅)
    = Response st buf ->
  st <> 200 \/ buf = [] ->
  run (ApplicationPool.resourceapplicationpoolRead s) d =
  (mkWorld d [mkRequest "get" "rest/app_pool_info" (Url.Add "apppool_id" (ApplicationPool.Id d) ∅)],
   Returned ["Unable to find application pool: " +:+ ApplicationPool.name d +:+ nl]).
Proof.
  intros V R U. unfold run, ApplicationPool.resourceapplicationpoolRead.
  handler_step. rewrite (version_guard_open _ V). handler_step. rewrite R.
  destruct (Z.eqb_spec st 200) as [->|N]; destruct buf as [|b0 rest];
    try reflexivity.
  destruct U; congruence.
Qed.

Lemma dnszone_read_unresolved d s st buf :
  respond s "get" "rest/dns_zone_info" (Url.Add "dnszone_id" (DNSForwardZone.Id d) ∅)
    = Response st buf ->
  st <> 200 \/ buf = [] ->
  run (DNSForwardZone.resourcednsforwardzoneRead s) d =
  (mkWorld d [mkRequest "get" "rest/dns_zone_info" (Url.Add "dnszone_id" (DNSForwardZone.Id d) ∅)],
   Returned ["Unable to find DNS forward zone: " +:+ DNSForwardZone.name d +:+ nl]).
Proof.
  intros R U. unfold run, DNSForwardZone.resourcednsforwardzoneRead.
  handler_step. rewrite R.
  destruct (Z.eqb_spec st 200) as [->|N]; destruct buf as [|b0 rest];
    try reflexivity.
  destruct U; congruence.
Qed.

Lemma ipmac_read_run d s st buf :
  respond s "get" "rest/ip_address_info" (Url.Add "ip_id" (IPMAC.Id d) ∅) = Response st buf ->
  run (IPMAC.resourceipmacRead s) d =
  (mkWorld (if ipmacResolved d st buf then d else IPMAC.withId "" d)
     [mkRequest "get" "rest/ip_address_info" (Url.Add "ip_id" (IPMAC.Id d) ∅)],
   Returned []).
Proof.
  intros R. unfold run, IPMAC.resourceipmacRead, IPMAC.SetId, ipmacResolved, firstString.
  handler_step. rewrite R.
  destruct ((st =? 200) || (st =? 201)); destruct buf as [|b0 rest];
    cbn [head mbind option_bind andb]; handler_step; try reflexivity.
  destruct (asString (b0 !! "mac_addr")) as [ipMac|]; handler_step; [|reflexivity].
  destruct (String.eqb _ _); handler_step; reflexivity.
Qed.

End unresolved_read.




(** ** Delete *)

Section delete.
Import Diag.

Lemma apppool_delete_run d s st buf :
  710 <= Version s ->
  respond s "delete" "rest/app_pool_delete" (Url.Add "apppool_id" (ApplicationPool.Id d) ∅)
    = Response st buf ->
  run (ApplicationPool.resourceapplicationpoolDelete s) d =
  let requests :=
    [mkRequest "delete" "rest/app_pool_delete" (Url.Add "apppool_id" (ApplicationPool.Id d) ∅)] in
  if (st =? 200) || (st =? 204)
  then (mkWorld (ApplicationPool.withId "" d) requests, Returned [])
  else (mkWorld d requests,
        Returned [match firstString buf "errmsg" with
                  | Some errMsg => "Unable to delete application pool: "
                                   +:+ ApplicationPool.name d +:+ " (" +:+ errMsg +:+ ")"
                  | None => "Unable to delete application pool: " +:+ ApplicationPool.name d
                  end]).
Proof.
  intros V R. unfold run, ApplicationPool.resourceapplicationpoolDelete,
    ApplicationPool.SetId, firstString.
  handler_step. rewrite (version_guard_open _ V). handler_step. rewrite R.
  destruct (st =? 200); destruct (st =? 204); cbn [negb andb orb];
    handler_step; try reflexivity.
  destruct buf as [|b0 rest]; cbn [head mbind option_bind]; [reflexivity|].
  destruct (asString (b0 !! "errmsg")); reflexivity.
Qed.

Lemma dnszone_delete_run d s st buf :
  respond s "delete" "rest/dns_zone_delete" (Url.Add "dnszone_id" (DNSForwardZone.Id d) ∅)
    = Response st buf ->
  run (DNSForwardZone.resourcednsforwardzoneDelete s) d =
  let requests :=
    [mkRequest "delete" "rest/dns_zone_delete" (Url.Add "dnszone_id" (DNSForwardZone.Id d) ∅)] in
  if (st =? 200) || (st =? 204)
  then (mkWorld (DNSForwardZone.withId "" d) requests, Returned [])
  else (mkWorld d requests,
        Returned [match firstString buf "errmsg" with
                  | Some errMsg => "Unable to delete DNS forward zone: "
                                   +:+ DNSForwardZone.name d +:+ " (" +:+ errMsg +:+ ")"
                  | None => "Unable to delete DNS forward zone: " +:+ DNSForwardZone.name d
                  end]).
Proof.
  intros R. unfold run, DNSForwardZone.resourcednsforwardzoneDelete,
    DNSForwardZone.SetId, firstString.
  handler_step. rewrite R.
  destruct (st =? 200); destruct (st =? 204); cbn [negb andb orb];
    handler_step; try reflexivity.
  destruct buf as [|b0 rest]; cbn [head mbind option_bind]; [reflexivity|].
  destruct (asString (b0 !! "errmsg")); reflexivity.
Qed.

Lemma ipmac_delete_run d s st buf :
  respond s "put" "rest/ip_add" (IPMAC.deleteParameters d) = Response st buf ->
  run (IPMAC.resourceipmacDelete s) d =
  let w := mkWorld d [mkRequest "put" "rest/ip_add" (IPMAC.deleteParameters d)] in
  match (st =? 200) || (st =? 201), buf with
  | true, b0 :: _ =>
      match asString (b0 !! "ret_oid") with
      | Some oid => (mkWorld (IPMAC.withId "" d) (sent w), Returned [])
      | None => (w, Returned [])
      end
  | _, _ => (w, Returned ["Failed to delete IP MAC association between "
                          +:+ IPMAC.address d +:+ " and " +:+ IPMAC.mac d +:+ nl])
  end.
Proof.
  intros R. unfold run, IPMAC.resourceipmacDelete, IPMAC.SetId.
  handler_step. rewrite R.
  destruct ((st =? 200) || (st =? 201)); destruct buf as [|b0 rest]; try reflexivity.
  destruct (asString (b0 !! "ret_oid")); handler_step; reflexivity.
Qed.

Lemma status_200_or_204 st : (st =? 200) || (st =? 204) = true <-> st = 200 \/ st = 204.
Proof. rewrite orb_true_iff, !Z.eqb_eq. reflexivity. Qed.

End delete.

(** C3 as stated fails on the IP/MAC association: on a 204 answer
    resourceipmacDelete has sent a PUT and returns an error. *)
Lemma delete_verb_counterexample :
  ~ (method <$> sent (fst (run (IPMAC.resourceipmacDelete noContentAppliance) sampleIPMAC))
       = ["delete"]
     /\ snd (run (IPMAC.resourceipmacDelete noContentAppliance) sampleIPMAC) = Returned []).
Proof. intros [_ E]. vm_compute in E. discriminate. Qed.

(** C3, amended: Delete of the application pool (version 710 or later) and
    of the DNS forward zone sends one DELETE to the delete service of the
    resource with the object id and, when the call completes, returns nil
    exactly when the status is 200 or 204, emptying the id then and leaving
    the data otherwise.  Delete of the IP/MAC association sends one PUT to
    rest/ip_add with an empty mac_addr and no object id; it empties the id
    and returns nil when the status is 200 or 201 and the first element
    has a string "ret_oid", and returns an error when the status is neither
    200 nor 201 or the array is empty. *)
Theorem delete_request_and_status s st buf pool zone ipmac :
  (710 <= Version s ->
   respond s "delete" "rest/app_pool_delete" (Url.Add "apppool_id" (ApplicationPool.Id pool) ∅)
     = Response st buf ->
   let r := run (ApplicationPool.resourceapplicationpoolDelete s) pool in
   sent (fst r) =
     [mkRequest "delete" "rest/app_pool_delete" (Url.Add "apppool_id" (ApplicationPool.Id pool) ∅)]
   /\ (snd r = Returned [] <-> st = 200 \/ st = 204)
   /\ data (fst r) = (if (st =? 200) || (st =? 204) then ApplicationPool.withId "" pool else pool)) /\
  (respond s "delete" "rest/dns_zone_delete" (Url.Add "dnszone_id" (DNSForwardZone.Id zone) ∅)
     = Response st buf ->
   let r := run (DNSForwardZone.resourcednsforwardzoneDelete s) zone in
   sent (fst r) =
     [mkRequest "delete" "rest/dns_zone_delete" (Url.Add "dnszone_id" (DNSForwardZone.Id zone) ∅)]
   /\ (snd r = Returned [] <-> st = 200 \/ st = 204)
   /\ data (fst r) = (if (st =? 200) || (st =? 204) then DNSForwardZone.withId "" zone else zone)) /\
  (respond s "put" "rest/ip_add" (IPMAC.deleteParameters ipmac) = Response st buf ->
   let r := run (IPMAC.resourceipmacDelete s) ipmac in
   sent (fst r) = [mkRequest "put" "rest/ip_add" (IPMAC.deleteParameters ipmac)]
   /\ IPMAC.deleteParameters ipmac =
        <["keep_class_parameters" := ["1"]]>
          (<["mac_addr" := [""]]>
             (<["hostaddr" := [IPMAC.address ipmac]]>
                (<["add_flag" := ["edit_only"]]>
                   (<["site_name" := [IPMAC.space ipmac]]> ∅))))
   /\ (is_Some (createdId st buf) -> r = (mkWorld (IPMAC.withId "" ipmac) (sent (fst r)), Returned []))
   /\ ((st <> 200 /\ st <> 201) \/ buf = [] ->
       r = (mkWorld ipmac (sent (fst r)),
            Returned ["Failed to delete IP MAC association between "
                      +:+ IPMAC.address ipmac +:+ " and " +:+ IPMAC.mac ipmac +:+ nl]))).
Proof.
  split; [|split].
  - intros V R r. subst r. rewrite (apppool_delete_run _ _ _ _ V R). cbn zeta.
    rewrite <- status_200_or_204.
    destruct ((st =? 200) || (st =? 204)); cbn [fst snd sent data];
      (split; [reflexivity|split; [|reflexivity]]); split; congruence.
  - intros R r. subst r. rewrite (dnszone_delete_run _ _ _ _ R). cbn zeta.
    rewrite <- status_200_or_204.
    destruct ((st =? 200) || (st =? 204)); cbn [fst snd sent data];
      (split; [reflexivity|split; [|reflexivity]]); split; congruence.
  - intros R r. subst r. rewrite (ipmac_delete_run _ _ _ _ R). cbn zeta.
    unfold createdId, firstString.
    assert (Hmac : IPMAC.deleteParameters ipmac =
                   <["keep_class_parameters" := ["1"]]>
                     (<["mac_addr" := [""]]>
                        (<["hostaddr" := [IPMAC.address ipmac]]>
                           (<["add_flag" := ["edit_only"]]>
                              (<["site_name" := [IPMAC.space ipmac]]> ∅))))).
    { unfold IPMAC.deleteParameters. cbv zeta. rewrite Add_empty.
      now rewrite !Add_fresh by fresh_key. }
    destruct (Z.eqb_spec st 200) as [->|N1];
      [|destruct (Z.eqb_spec st 201) as [->|N2]]; cbn [orb].
    + destruct buf as [|b0 rest]; cbn [head mbind option_bind fst snd sent].
      * repeat split; try assumption. intros [? ?]; discriminate.
      * destruct (asString (b0 !! "ret_oid")); cbn [fst snd sent];
          repeat split; try assumption; try reflexivity.
        -- intros [[? _]|?]; congruence.
        -- intros [? ?]; discriminate.
        -- intros [[? _]|?]; congruence.
    + destruct buf as [|b0 rest]; cbn [head mbind option_bind fst snd sent].
      * repeat split; try assumption. intros [? ?]; discriminate.
      * destruct (asString (b0 !! "ret_oid")); cbn [fst snd sent];
          repeat split; try assumption; try reflexivity.
        -- intros [[_ ?]|?]; congruence.
        -- intros [? ?]; discriminate.
        -- intros [[_ ?]|?]; congruence.
    + cbn [fst snd sent]. repeat split; try assumption.
      intros [? ?]; discriminate.
Qed.

Lemma delete_request_and_status_witness :
  snd (run (ApplicationPool.resourceapplicationpoolDelete noContentAppliance) samplePool)
    = Returned [] /\
  snd (run (DNSForwardZone.resourcednsforwardzoneDelete noContentAppliance) sampleZone)
    = Returned [] /\
  run (IPMAC.resourceipmacDelete noContentAppliance) sampleIPMAC =
  (mkWorld sampleIPMAC [mkRequest "put" "rest/ip_add" (IPMAC.deleteParameters sampleIPMAC)],
   Returned ["Failed to delete IP MAC association between 10.0.0.1 and AA:BB:CC:DD:EE:FF" +:+ nl]).
Proof.
  destruct (delete_request_and_status noContentAppliance 204 [] samplePool sampleZone sampleIPMAC)
    as (A & B & C).
  split; [|split].
  - apply A; [cbn; lia | reflexivity | right; reflexivity].
  - apply B; [reflexivity | right; reflexivity].
  - destruct (C eq_refl) as (S & _ & _ & F). rewrite S in F.
    apply F. left; split; discriminate.
Defined.

(** ** Update against Create *)

Lemma apppool_update_parameters d :
  ApplicationPool.updateParameters d =
  <["apppool_id" := [ApplicationPool.Id d]]>
    (<["add_flag" := ["edit_only"]]> (ApplicationPool.createParameters d)).
Proof.
  unfold ApplicationPool.updateParameters, ApplicationPool.createParameters. cbv zeta.
  destruct (Bool.eqb (ApplicationPool.affinity d) false);
    destruct (String.eqb (ApplicationPool.lb_mode d) "latency");
    rewrite !insert_Add_ne by distinct_keys;
    rewrite !Add_empty, insert_insert_eq;
    rewrite (insert_insert_ne ∅ "apppool_id" "add_flag") by distinct_keys;
    reflexivity.
Qed.

Lemma dnszone_update_parameters d :
  DNSForwardZone.updateParameters d =
  <["dnszone_id" := [DNSForwardZone.Id d]]>
    (<["add_flag" := ["edit_only"]]>
       (delete "dns_name" (delete "dnsview_name" (delete "dnszone_name"
          (delete "dnszone_type" (DNSForwardZone.createParameters d)))))).
Proof.
  unfold DNSForwardZone.updateParameters, DNSForwardZone.createParameters. cbv zeta.
  destruct (negb (String.eqb (DNSForwardZone.dnsview d) "#")).
  all: repeat (rewrite ?delete_Add_eq; rewrite ?delete_Add_ne by distinct_keys).
  all: rewrite ?delete_empty.
  all: rewrite !insert_Add_ne by distinct_keys.
  all: rewrite !Add_empty, insert_insert_eq.
  all: rewrite (insert_insert_ne ∅ "dnszone_id" "add_flag") by distinct_keys.
  all: reflexivity.
Qed.

Lemma apppool_checkAnswer_sent verbing st buf w :
  sent (fst (ApplicationPool.checkAnswer verbing st buf w)) = sent w.
Proof. rewrite apppool_checkAnswer. now destruct (createdId st buf). Qed.

Lemma dnszone_checkAnswer_sent verbing st buf w :
  sent (fst (DNSForwardZone.checkAnswer verbing st buf w)) = sent w.
Proof. rewrite dnszone_checkAnswer. now destruct (createdId st buf). Qed.

(** C5 as stated fails on the DNS forward zone: Update does not send the
    "dns_name" that Create sends. *)
Lemma update_parameters_counterexample :
  DNSForwardZone.updateParameters sampleZone <>
  <["dnszone_id" := [DNSForwardZone.Id sampleZone]]>
    (<["add_flag" := ["edit_only"]]> (DNSForwardZone.createParameters sampleZone)).
Proof.
  intros E. apply (f_equal (fun m : Url.Values => m !! "dns_name")) in E.
  vm_compute in E. discriminate.
Qed.

(** C5, amended: for every field set, Update of the application pool builds
    the parameters of Create with the stored id added under "apppool_id"
    and "add_flag" set to "edit_only", and Update of the DNS forward zone
    builds the parameters of Create without "dns_name", "dnsview_name",
    "dnszone_name" and "dnszone_type", with the stored id added under
    "dnszone_id" and "add_flag" set to "edit_only".  Both Updates send one
    PUT to the service to which Create sends its POST. *)
Theorem update_parameters_from_create s pool zone :
  ApplicationPool.updateParameters pool =
    <["apppool_id" := [ApplicationPool.Id pool]]>
      (<["add_flag" := ["edit_only"]]> (ApplicationPool.createParameters pool)) /\
  DNSForwardZone.updateParameters zone =
    <["dnszone_id" := [DNSForwardZone.Id zone]]>
      (<["add_flag" := ["edit_only"]]>
         (delete "dns_name" (delete "dnsview_name" (delete "dnszone_name"
            (delete "dnszone_type" (DNSForwardZone.createParameters zone)))))) /\
  (710 <= Version s ->
   sent (fst (run (ApplicationPool.resourceapplicationpoolCreate s) pool)) =
     [mkRequest "post" "rest/app_pool_add" (ApplicationPool.createParameters pool)] /\
   sent (fst (run (ApplicationPool.resourceapplicationpoolUpdate s) pool)) =
     [mkRequest "put" "rest/app_pool_add" (ApplicationPool.updateParameters pool)]) /\
  sent (fst (run (DNSForwardZone.resourcednsforwardzoneCreate s) zone)) =
    [mkRequest "post" "rest/dns_zone_add" (DNSForwardZone.createParameters zone)] /\
  sent (fst (run (DNSForwardZone.resourcednsforwardzoneUpdate s) zone)) =
    [mkRequest "put" "rest/dns_zone_add" (DNSForwardZone.updateParameters zone)].
Proof.
  split; [apply apppool_update_parameters|].
  split; [apply dnszone_update_parameters|].
  split; [intros V; split|split].
  - unfold run, ApplicationPool.resourceapplicationpoolCreate.
    handler_step. rewrite (version_guard_open _ V). handler_step.
    destruct (respond _ _ _ _); [reflexivity|]. now rewrite apppool_checkAnswer_sent.
  - unfold run, ApplicationPool.resourceapplicationpoolUpdate.
    handler_step. rewrite (version_guard_open _ V). handler_step.
    destruct (respond _ _ _ _); [reflexivity|]. now rewrite apppool_checkAnswer_sent.
  - unfold run, DNSForwardZone.resourcednsforwardzoneCreate. handler_step.
    destruct (respond _ _ _ _); [reflexivity|]. now rewrite dnszone_checkAnswer_sent.
  - unfold run, DNSForwardZone.resourcednsforwardzoneUpdate. handler_step.
    destruct (respond _ _ _ _); [reflexivity|]. now rewrite dnszone_checkAnswer_sent.
Qed.

Lemma update_parameters_from_create_witness :
  sent (fst (run (ApplicationPool.resourceapplicationpoolCreate acceptingAppliance) samplePool)) =
    [mkRequest "post" "rest/app_pool_add" (ApplicationPool.createParameters samplePool)] /\
  sent (fst (run (ApplicationPool.resourceapplicationpoolUpdate acceptingAppliance) samplePool)) =
    [mkRequest "put" "rest/app_pool_add" (ApplicationPool.updateParameters samplePool)].
Proof.
  destruct (update_parameters_from_create acceptingAppliance samplePool sampleZone)
    as (_ & _ & A & _).
  apply A. cbn; lia.
Defined.

(** ** The forwarder list *)

Section strings.
Implicit Types (s x y cur rest : string) (c : ascii).

Lemma append_cons c x y : String c x +:+ y = String c (x +:+ y).
Proof. reflexivity. Qed.

Lemma append_nil_l x : "" +:+ x = x.
Proof. reflexivity. Qed.

Lemma append_nil_r x : x +:+ "" = x.
Proof. induction x as [|c x IH]; [reflexivity|]. now rewrite append_cons, IH. Qed.

Lemma append_assoc x y z : (x +:+ y) +:+ z = x +:+ (y +:+ z).
Proof. induction x as [|c x IH]; [reflexivity|]. now rewrite !append_cons, IH. Qed.

Lemma length_append x y : String.length (x +:+ y) = (String.length x + String.length y)%nat.
Proof. induction x as [|c x IH]; [reflexivity|]. rewrite append_cons. cbn. now rewrite IH. Qed.

Lemma substring_prefix x y : substring 0 (String.length x) (x +:+ y) = x.
Proof.
  induction x as [|c x IH]; [now destruct y|].
  rewrite append_cons. cbn. now rewrite IH.
Qed.

Lemma substring_suffix x y :
  substring (String.length x) (String.length y) (x +:+ y) = y.
Proof.
  induction x as [|c x IH]; [|now rewrite append_cons].
  rewrite append_nil_l. cbn [String.length].
  induction y as [|c y IH]; [reflexivity|]. cbn. now rewrite IH.
Qed.

Lemma TrimSuffix_append x y : GoStrings.TrimSuffix (x +:+ y) y = x.
Proof.
  unfold GoStrings.TrimSuffix, GoStrings.HasSuffix. rewrite length_append.
  replace (String.length x + String.length y - String.length y)%nat
    with (String.length x) by lia.
  rewrite substring_suffix, String.eqb_refl, substring_prefix.
  replace (Nat.leb _ _) with true; [reflexivity|].
  symmetry. apply Nat.leb_le. lia.
Qed.

Lemma prefix_cons a x b y :
  String.prefix (String a x) (String b y) = if ascii_dec a b then String.prefix x y else false.
Proof. reflexivity. Qed.

Lemma prefix_semicolon c x : String.prefix ";" (String c x) = if ascii_dec ";" c then true else false.
Proof. rewrite prefix_cons. destruct (ascii_dec ";" c); [|reflexivity]. now destruct x. Qed.

Lemma Contains_cons c x y :
  GoStrings.Contains (String c x) y = String.prefix y (String c x) || GoStrings.Contains x y.
Proof. reflexivity. Qed.

(** A string free of ';' is scanned into the current piece. *)
Lemma split_scan_piece x rest cur :
  GoStrings.Contains x ";" = false ->
  GoStrings.split_scan ";" (x +:+ rest) O cur = GoStrings.split_scan ";" rest O (cur +:+ x).
Proof.
  revert cur. induction x as [|c x IH]; intros cur F.
  - now rewrite append_nil_l, append_nil_r.
  - rewrite Contains_cons in F. apply orb_false_iff in F as [F1 F2].
    rewrite prefix_semicolon in F1.
    rewrite append_cons. cbn [GoStrings.split_scan].
    rewrite prefix_semicolon. destruct (ascii_dec ";" c); [discriminate|].
    rewrite IH by assumption. now rewrite append_assoc.
Qed.

Lemma split_scan_separator rest cur :
  GoStrings.split_scan ";" (";" +:+ rest) O cur = cur :: GoStrings.split_scan ";" rest O "".
Proof.
  rewrite append_cons, append_nil_l. cbn [GoStrings.split_scan].
  rewrite prefix_semicolon. now destruct (ascii_dec ";" ";").
Qed.

Lemma fwdList_from acc l :
  fold_left (fun acc fwd => acc +:+ (fwd +:+ ";")) l acc =
  acc +:+ fold_left (fun acc fwd => acc +:+ (fwd +:+ ";")) l "".
Proof.
  revert acc. induction l as [|x l IH]; intros acc; cbn [fold_left].
  - now rewrite append_nil_r.
  - rewrite IH, (IH ("" +:+ _)), append_nil_l. now rewrite append_assoc.
Qed.

Lemma fwdList_cons fwd l :
  DNSForwardZone.fwdList (fwd :: l) = (fwd +:+ ";") +:+ DNSForwardZone.fwdList l.
Proof.
  unfold DNSForwardZone.fwdList, toStringArray. cbn [fold_left].
  now rewrite fwdList_from, append_nil_l.
Qed.

(** The scan of a serialised list followed by a last piece. *)
Lemma split_scan_fwdList l last cur :
  Forall (fun fwd => GoStrings.Contains fwd ";" = false) l ->
  GoStrings.Contains last ";" = false ->
  GoStrings.split_scan ";" (DNSForwardZone.fwdList l +:+ last) O cur =
  match l with
  | [] => [cur +:+ last]
  | fwd :: l' => (cur +:+ fwd) :: l' ++ [last]
  end%list.
Proof.
  intros Hl Hlast. revert cur. induction Hl as [|fwd l Hfwd Hl IH]; intros cur.
  - unfold DNSForwardZone.fwdList. cbn [toStringArray fold_left]. rewrite append_nil_l.
    rewrite <- (append_nil_r last) at 1. rewrite split_scan_piece by assumption. reflexivity.
  - rewrite fwdList_cons, !append_assoc.
    rewrite split_scan_piece, split_scan_separator by assumption.
    rewrite IH. f_equal. destruct l; reflexivity.
Qed.

Lemma fwdList_snoc l last :
  DNSForwardZone.fwdList (l ++ [last]) = (DNSForwardZone.fwdList l +:+ last) +:+ ";".
Proof.
  induction l as [|x l IH].
  - cbn [app]. rewrite fwdList_cons. unfold DNSForwardZone.fwdList, toStringArray.
    cbn [fold_left]. now rewrite append_nil_r, append_nil_l.
  - cbn [app]. rewrite !fwdList_cons, IH. now rewrite !append_assoc.
Qed.

Lemma splitForwarders_fwdList l :
  l <> [] ->
  Forall (fun fwd => GoStrings.Contains fwd ";" = false) l ->
  DNSForwardZone.splitForwarders (DNSForwardZone.fwdList l) = l.
Proof.
  intros N F. destruct (exists_last N) as (l0 & last & ->).
  apply Forall_app in F as [F0 Flast]. inversion Flast as [|? ? Hlast _]; subst.
  unfold DNSForwardZone.splitForwarders, toStringArrayInterface, GoStrings.Split.
  rewrite fwdList_snoc, TrimSuffix_append.
  rewrite split_scan_fwdList by assumption.
  destruct l0; [reflexivity|]. now rewrite append_nil_l.
Qed.

Lemma fwdList_nonempty l : l <> [] -> DNSForwardZone.fwdList l <> "".
Proof.
  destruct l as [|fwd l]; [congruence|]. intros _. rewrite fwdList_cons.
  destruct fwd; discriminate.
Qed.

End strings.

(** ** The fields written by Read and ImportState *)

Ltac assert_step :=
  match goal with
  | H : asString ?x = Some ?v |- context [(assertString ?x ≫= _) _] =>
      rewrite (bind_assertString_Some x v) by exact H
  | H : asString ?x = None |- context [(assertString ?x ≫= _) _] =>
      rewrite (bind_assertString_None x) by exact H
  end.

Ltac run_handler :=
  repeat first
    [ rewrite bind_assoc
    | progress (autorewrite with handler; cbn [data sent])
    | assert_step ].

Ltac split_keys H :=
  repeat match type of H with
         | Forall _ (_ :: _) => let K := fresh "K" in apply Forall_cons in H as [K H]
         end.

Lemma stringAt_Some b0 key v : asString (b0 !! key) = Some v -> stringAt b0 key = v.
Proof. intros E. unfold stringAt. now rewrite E. Qed.

Section class_parameters.

Lemma Add_nonempty key value (m : Url.Values) k :
  (forall k, m !! k <> Some []) -> Url.Add key value m !! k <> Some [].
Proof.
  intros I. unfold Url.Add. rewrite lookup_insert. case_decide; [|apply I].
  intros E. injection E as E. now apply app_nil in E as [_ ?].
Qed.

Lemma parse_pair_nonempty (m : Url.Values) piece :
  (forall k, m !! k <> Some []) -> forall k, Url.parse_pair m piece !! k <> Some [].
Proof.
  intros I k. unfold Url.parse_pair.
  destruct (GoStrings.Contains piece ";"); [apply I|].
  destruct (String.eqb piece ""); [apply I|].
  destruct (GoStrings.Cut piece "=") as [[key value] found].
  destruct (Url.QueryUnescape key); [|apply I].
  destruct (Url.QueryUnescape value); [|apply I].
  now apply Add_nonempty.
Qed.

(** url.ParseQuery never stores an empty slice. *)
Lemma ParseQuery_nonempty query k : Url.ParseQuery query !! k <> Some [].
Proof.
  unfold Url.ParseQuery. revert k.
  assert (G : forall pieces (m : Url.Values),
             (forall k, m !! k <> Some []) ->
             forall k, fold_left Url.parse_pair pieces m !! k <> Some []).
  { induction pieces as [|p pieces IH]; intros m I; [exact I|].
    cbn [fold_left]. apply IH. now apply parse_pair_nonempty. }
  apply G. intros k. now rewrite lookup_empty.
Qed.

Lemma computeClassParameters_run current (retrieved : Url.Values) (w : World DNSForwardZone.ResourceData) :
  (forall k, retrieved !! k <> Some []) ->
  DNSForwardZone.computeClassParameters current retrieved w =
  (w, Returned (map_imap (fun key _ => Some (firstValue retrieved key)) current)).
Proof.
  intros I. unfold DNSForwardZone.computeClassParameters.
  apply (map_fold_weak_ind
           (fun (r : M DNSForwardZone.ResourceData (gmap string string)) m =>
              r w = (w, Returned (map_imap (fun key _ => Some (firstValue retrieved key)) m)))).
  - now rewrite map_imap_empty.
  - intros i x m r Hi Hr. rewrite bind_unfold, Hr.
    rewrite (map_imap_insert_Some _ _ _ _ (firstValue retrieved i)) by reflexivity.
    unfold firstValue. specialize (I i).
    destruct (retrieved !! i) as [[|rv0 rv]|]; [congruence|reflexivity|reflexivity].
Qed.

Lemma updateClassParameters_run b0 query (w : World DNSForwardZone.ResourceData) :
  asString (b0 !! "dnszone_class_parameters") = Some query ->
  DNSForwardZone.updateClassParameters b0 w =
  (mkWorld (DNSForwardZone.writeField "class_parameters"
              (VMap (expectedClassParameters (DNSForwardZone.class_parameters (data w)) query))
              (data w)) (sent w),
   Returned tt).
Proof.
  intros Q. unfold DNSForwardZone.updateClassParameters, DNSForwardZone.SetField.
  run_handler.
  replace (match Url.ParseQuery query !! "dnsptr" with
           | Some _ => delete "dnsptr" (Url.ParseQuery query)
           | None => Url.ParseQuery query
           end) with (delete "dnsptr" (Url.ParseQuery query)).
  - rewrite bind_unfold, computeClassParameters_run.
    + reflexivity.
    + intros k. rewrite lookup_delete. case_decide; [discriminate|].
      apply ParseQuery_nonempty.
  - destruct (Url.ParseQuery query !! "dnsptr") eqn:E; [reflexivity|].
    now apply delete_id.
Qed.

End class_parameters.

Section dnszone_forward.

Lemma updateForward_run b0 mode fwds (w : World DNSForwardZone.ResourceData) :
  asString (b0 !! "dnszone_forward") = Some mode ->
  asString (b0 !! "dnszone_forwarders") = Some fwds ->
  DNSForwardZone.updateForward b0 w =
  (mkWorld
     (let d1 := DNSForwardZone.writeField "forward"
                  (VString (if String.eqb mode "" then "none" else GoStrings.ToLower mode))
                  (data w) in
      if String.eqb fwds "" then d1
      else DNSForwardZone.writeField "forwarders" (VList (DNSForwardZone.splitForwarders fwds)) d1)
     (sent w),
   Returned tt).
Proof.
  intros Hm Hf. unfold DNSForwardZone.updateForward, DNSForwardZone.SetField.
  run_handler. destruct (String.eqb mode ""); run_handler;
    destruct (String.eqb fwds ""); cbn [negb]; run_handler; reflexivity.
Qed.

Lemma updateForward_panics b0 (w : World DNSForwardZone.ResourceData) :
  asString (b0 !! "dnszone_forward") = None \/ asString (b0 !! "dnszone_forwarders") = None ->
  snd (DNSForwardZone.updateForward b0 w) = Panicked.
Proof.
  intros H. unfold DNSForwardZone.updateForward, DNSForwardZone.SetField.
  destruct (asString (b0 !! "dnszone_forward")) as [mode|] eqn:Hm; run_handler;
    [|reflexivity].
  destruct H as [H|H]; [discriminate|].
  destruct (String.eqb mode ""); run_handler; reflexivity.
Qed.

Lemma dnszone_readFields_run b0 (w : World DNSForwardZone.ResourceData) :
  Forall (fun key => is_Some (asString (b0 !! key))) dnszoneReadKeys ->
  DNSForwardZone.readFields b0 w =
  (mkWorld (dnszoneReadResult b0 (data w)) (sent w), Returned tt).
Proof.
  intros H. unfold dnszoneReadKeys in H. split_keys H.
  repeat match goal with K : is_Some _ |- _ => destruct K as [? K] end.
  unfold DNSForwardZone.readFields, DNSForwardZone.SetField. run_handler.
  rewrite bind_unfold. erewrite updateForward_run by eassumption. run_handler.
  erewrite updateClassParameters_run by eassumption.
  unfold dnszoneReadResult.
  repeat match goal with K : asString _ = Some _ |- _ => rewrite (stringAt_Some _ _ _ K); clear K end.
  destruct w as [[id srv view nm fwd fwds cls params] reqs]. cbn [data sent].
  cbn. repeat match goal with |- context [String.eqb ?a ""] => destruct (String.eqb a "") end; reflexivity.
Qed.

End dnszone_forward.

Ltac on_key k :=
  match goal with
  | |- context [assertString (?b !! k)] => destruct (asString (b !! k)) eqn:?
  end; run_handler; [|try reflexivity].

Ltac no_missing_key H :=
  repeat (apply Exists_cons in H as [H|H]; [congruence|]);
  now apply Exists_nil in H.

Section dnszone_fields.

Lemma bind_panicked {D A B} (m : M D A) (f : A -> M D B) (w : World D) :
  snd (m w) = Panicked -> snd ((m ≫= f) w) = Panicked.
Proof. rewrite bind_unfold. destruct (m w) as [w' [a|]]; [discriminate|reflexivity]. Qed.

Lemma updateClassParameters_panics b0 (w : World DNSForwardZone.ResourceData) :
  asString (b0 !! "dnszone_class_parameters") = None ->
  snd (DNSForwardZone.updateClassParameters b0 w) = Panicked.
Proof.
  intros E. unfold DNSForwardZone.updateClassParameters. run_handler. reflexivity.
Qed.

Lemma dnszone_readFields_panics b0 (w : World DNSForwardZone.ResourceData) :
  Exists (fun key => asString (b0 !! key) = None) dnszoneReadKeys ->
  snd (DNSForwardZone.readFields b0 w) = Panicked.
Proof.
  intros H. unfold dnszoneReadKeys in H.
  unfold DNSForwardZone.readFields, DNSForwardZone.SetField.
  on_key "dns_name". on_key "dnsview_name". on_key "dnszone_name".
  destruct (asString (b0 !! "dnszone_forward")) eqn:?;
    [|apply bind_panicked, updateForward_panics; now left].
  destruct (asString (b0 !! "dnszone_forwarders")) eqn:?;
    [|apply bind_panicked, updateForward_panics; now right].
  rewrite bind_unfold. erewrite updateForward_run by eassumption. run_handler.
  on_key "dnszone_class_name".
  destruct (asString (b0 !! "dnszone_class_parameters")) eqn:?;
    [|now apply updateClassParameters_panics].
  no_missing_key H.
Qed.

Lemma dnszone_importFields_run b0 (w : World DNSForwardZone.ResourceData) :
  Forall (fun key => is_Some (asString (b0 !! key))) dnszoneImportKeys ->
  DNSForwardZone.importFields b0 w =
  (mkWorld (dnszoneReadResult b0 (data w)) (sent w), Returned tt).
Proof.
  intros H. unfold dnszoneImportKeys, dnszoneReadKeys in H. split_keys H.
  repeat match goal with K : is_Some _ |- _ => destruct K as [? K] end.
  unfold DNSForwardZone.importFields, DNSForwardZone.SetField. run_handler.
  rewrite bind_unfold. erewrite updateForward_run by eassumption. run_handler.
  erewrite updateClassParameters_run by eassumption.
  unfold dnszoneReadResult.
  repeat match goal with K : asString _ = Some _ |- _ => rewrite (stringAt_Some _ _ _ K); clear K end.
  destruct w as [[id srv view nm fwd fwds cls params] reqs]. cbn [data sent].
  cbn. repeat match goal with |- context [String.eqb ?a ""] => destruct (String.eqb a "") end; reflexivity.
Qed.

Lemma dnszone_importFields_panics b0 (w : World DNSForwardZone.ResourceData) :
  Exists (fun key => asString (b0 !! key) = None) dnszoneImportKeys ->
  snd (DNSForwardZone.importFields b0 w) = Panicked.
Proof.
  intros H. unfold dnszoneImportKeys, dnszoneReadKeys in H.
  unfold DNSForwardZone.importFields, DNSForwardZone.SetField.
  on_key "dns_name". on_key "dnsview_name". on_key "dnszone_name". on_key "dnszone_type".
  destruct (asString (b0 !! "dnszone_forward")) eqn:?;
    [|apply bind_panicked, updateForward_panics; now left].
  destruct (asString (b0 !! "dnszone_forwarders")) eqn:?;
    [|apply bind_panicked, updateForward_panics; now right].
  rewrite bind_unfold. erewrite updateForward_run by eassumption. run_handler.
  on_key "dnszone_class_name".
  destruct (asString (b0 !! "dnszone_class_parameters")) eqn:?;
    [|now apply updateClassParameters_panics].
  no_missing_key H.
Qed.

End dnszone_fields.

Section apppool_fields.

Lemma apppoolAssertedKeys_Some b0 state :
  asString (b0 !! "apppool_affinity_state") = Some state ->
  apppoolAssertedKeys b0 =
  (["apppool_name"; "appapplication_name"; "appapplication_fqdn"; "apppool_lb_mode";
   "apppool_affinity_state"; "apppool_best_active_nodes"]
  ++ (if String.eqb state "0" then [] else ["apppool_affinity_session_time"]))%list.
Proof. intros E. unfold apppoolAssertedKeys. now rewrite E. Qed.

Ltac name_key k v K :=
  match goal with
  | E : asString (_ !! k) = Some ?x |- _ => rename x into v; rename E into K
  end.

Lemma apppool_readFields_run b0 (w : World ApplicationPool.ResourceData) :
  Forall (fun key => is_Some (asString (b0 !! key))) (apppoolAssertedKeys b0) ->
  ApplicationPool.readFields b0 w =
  (mkWorld (apppoolReadResult b0 (data w)) (sent w), Returned tt).
Proof.
  intros H. unfold apppoolAssertedKeys in H.
  apply Forall_app in H as [H H']. split_keys H.
  repeat match goal with K : is_Some _ |- _ => destruct K as [? K] end.
  name_key "apppool_affinity_state" state Ks. name_key "apppool_best_active_nodes" nodes Kn.
  rewrite Ks in H'.
  unfold ApplicationPool.readFields, ApplicationPool.SetField, apppoolReadResult.
  run_handler.
  repeat match goal with K : asString _ = Some _ |- _ => rewrite (stringAt_Some _ _ _ K) end.
  cbv zeta.
  destruct w as [[id app fq nm ipv lb aff dur ban] reqs]. cbn [data sent].
  destruct (String.eqb state "0").
  - run_handler. destruct (String.eqb nodes ""); cbn [negb]; run_handler; reflexivity.
  - apply Forall_cons in H' as [[v Kt] _]. run_handler. rewrite (stringAt_Some _ _ _ Kt).
    destruct (String.eqb nodes ""); cbn [negb]; run_handler; reflexivity.
Qed.

Lemma apppool_importFields_run b0 (w : World ApplicationPool.ResourceData) :
  Forall (fun key => is_Some (asString (b0 !! key))) (apppoolAssertedKeys b0) ->
  ApplicationPool.importFields b0 w =
  (mkWorld (apppoolImportResult b0 (data w)) (sent w), Returned tt).
Proof.
  intros H. unfold apppoolAssertedKeys in H.
  apply Forall_app in H as [H H']. split_keys H.
  repeat match goal with K : is_Some _ |- _ => destruct K as [? K] end.
  name_key "apppool_affinity_state" state Ks. name_key "apppool_best_active_nodes" nodes Kn.
  rewrite Ks in H'.
  unfold ApplicationPool.importFields, ApplicationPool.SetField, apppoolImportResult.
  run_handler.
  repeat match goal with K : asString _ = Some _ |- _ => rewrite (stringAt_Some _ _ _ K) end.
  cbv zeta.
  destruct w as [[id app fq nm ipv lb aff dur ban] reqs]. cbn [data sent].
  destruct (String.eqb state "0").
  - run_handler. destruct (String.eqb nodes ""); cbn [negb]; run_handler; reflexivity.
  - apply Forall_cons in H' as [[v Kt] _]. run_handler. rewrite (stringAt_Some _ _ _ Kt).
    destruct (String.eqb nodes ""); cbn [negb]; run_handler; reflexivity.
Qed.

Lemma apppool_readFields_panics b0 (w : World ApplicationPool.ResourceData) :
  Exists (fun key => asString (b0 !! key) = None) (apppoolAssertedKeys b0) ->
  snd (ApplicationPool.readFields b0 w) = Panicked.
Proof.
  intros H. unfold apppoolAssertedKeys in H.
  unfold ApplicationPool.readFields, ApplicationPool.SetField.
  on_key "apppool_name". on_key "appapplication_name". on_key "appapplication_fqdn".
  on_key "apppool_lb_mode". on_key "apppool_affinity_state".
  name_key "apppool_affinity_state" state Ks.
  destruct (String.eqb state "0"); run_handler.
  - on_key "apppool_best_active_nodes". cbn [app] in H. no_missing_key H.
  - on_key "apppool_affinity_session_time". on_key "apppool_best_active_nodes".
    cbn [app] in H. no_missing_key H.
Qed.


End apppool_fields.

(** ** Read and ImportState on a found object *)

Section found_object.
Import Diag.

Lemma dnszone_read_found d s b0 rest :
  respond s "get" "rest/dns_zone_info" (Url.Add "dnszone_id" (DNSForwardZone.Id d) ∅)
    = Response 200 (b0 :: rest) ->
  let w0 := mkWorld d [mkRequest "get" "rest/dns_zone_info"
                         (Url.Add "dnszone_id" (DNSForwardZone.Id d) ∅)] in
  (forall w, DNSForwardZone.readFields b0 w0 = (w, Returned tt) ->
             run (DNSForwardZone.resourcednsforwardzoneRead s) d = (w, Returned [])) /\
  (snd (DNSForwardZone.readFields b0 w0) = Panicked ->
   snd (run (DNSForwardZone.resourcednsforwardzoneRead s) d) = Panicked).
Proof.
  intros R w0. unfold run, DNSForwardZone.resourcednsforwardzoneRead.
  handler_step. rewrite R. cbn [Z.eqb Pos.eqb app]. fold w0. split.
  - intros w E. now rewrite bind_unfold, E.
  - apply bind_panicked.
Qed.

Lemma dnszone_import_found d s b0 rest :
  respond s "get" "rest/dns_zone_info" (Url.Add "dnszone_id" (DNSForwardZone.Id d) ∅)
    = Response 200 (b0 :: rest) ->
  let w0 := mkWorld d [mkRequest "get" "rest/dns_zone_info"
                         (Url.Add "dnszone_id" (DNSForwardZone.Id d) ∅)] in
  (forall w, DNSForwardZone.importFields b0 w0 = (w, Returned tt) ->
             run (DNSForwardZone.resourcednsforwardzoneImportState s) d
             = (w, Returned (Some [data w], None))) /\
  (snd (DNSForwardZone.importFields b0 w0) = Panicked ->
   snd (run (DNSForwardZone.resourcednsforwardzoneImportState s) d) = Panicked).
Proof.
  intros R w0. unfold run, DNSForwardZone.resourcednsforwardzoneImportState.
  handler_step. rewrite R. cbn [Z.eqb Pos.eqb app]. fold w0. split.
  - intros w E. rewrite bind_unfold, E. now handler_step.
  - apply bind_panicked.
Qed.

Lemma apppool_read_found d s b0 rest :
  710 <= Version s ->
  respond s "get" "rest/app_pool_info" (Url.Add "apppool_id" (ApplicationPool.Id d) ∅)
    = Response 200 (b0 :: rest) ->
  let w0 := mkWorld d [mkRequest "get" "rest/app_pool_info"
                         (Url.Add "apppool_id" (ApplicationPool.Id d) ∅)] in
  (forall w, ApplicationPool.readFields b0 w0 = (w, Returned tt) ->
             run (ApplicationPool.resourceapplicationpoolRead s) d = (w, Returned [])) /\
  (snd (ApplicationPool.readFields b0 w0) = Panicked ->
   snd (run (ApplicationPool.resourceapplicationpoolRead s) d) = Panicked).
Proof.
  intros V R w0. unfold run, ApplicationPool.resourceapplicationpoolRead.
  handler_step. rewrite (version_guard_open _ V). handler_step.
  rewrite R. cbn [Z.eqb Pos.eqb app]. fold w0. split.
  - intros w E. now rewrite bind_unfold, E.
  - apply bind_panicked.
Qed.

Lemma apppool_import_found d s b0 rest :
  710 <= Version s ->
  respond s "get" "rest/app_pool_info" (Url.Add "apppool_id" (ApplicationPool.Id d) ∅)
    = Response 200 (b0 :: rest) ->
  let w0 := mkWorld d [mkRequest "get" "rest/app_pool_info"
                         (Url.Add "apppool_id" (ApplicationPool.Id d) ∅)] in
  (forall w, ApplicationPool.importFields b0 w0 = (w, Returned tt) ->
             run (ApplicationPool.resourceapplicationpoolImportState s) d
             = (w, Returned (Some [data w], None))) /\
  (snd (ApplicationPool.importFields b0 w0) = Panicked ->
   snd (run (ApplicationPool.resourceapplicationpoolImportState s) d) = Panicked).
Proof.
  intros V R w0. unfold run, ApplicationPool.resourceapplicationpoolImportState.
  handler_step. rewrite (version_guard_open _ V). handler_step.
  rewrite R. cbn [Z.eqb Pos.eqb app]. fold w0. split.
  - intros w E. rewrite bind_unfold, E. now handler_step.
  - apply bind_panicked.
Qed.

End found_object.

(** ** ImportState *)

Section import_results.
Import Diag.



End import_results.



(** ** The forwarders, from Create to Read *)

(** C7: for a non-empty list of forwarders that are non-empty and free of
    ';', the string that Create sends (each forwarder followed by ';') is
    not empty, and what Read makes of it (one trailing ';' trimmed, the
    rest split at ';') is the list. *)
Theorem forwarders_round_trip (l : list string) :
  l <> [] ->
  Forall (fun fwd => fwd <> "" /\ GoStrings.Contains fwd ";" = false) l ->
  DNSForwardZone.fwdList l <> "" /\
  DNSForwardZone.splitForwarders (DNSForwardZone.fwdList l) = l.
Proof.
  intros N F. split; [now apply fwdList_nonempty|].
  apply splitForwarders_fwdList; [assumption|].
  eapply Forall_impl; [exact F|]. now intros fwd [_ ?].
Qed.

Lemma forwarders_round_trip_witness :
  DNSForwardZone.splitForwarders (DNSForwardZone.fwdList ["192.0.2.1"; "192.0.2.2"])
  = ["192.0.2.1"; "192.0.2.2"].
Proof.
  apply (forwarders_round_trip ["192.0.2.1"; "192.0.2.2"]).
  - discriminate.
  - repeat constructor; discriminate.
Defined.

(** ** The class parameters after Read *)

Lemma expectedClassParameters_lookup current query key :
  expectedClassParameters current query !! key =
  match current !! key with
  | Some _ => Some (firstValue (delete "dnsptr" (Url.ParseQuery query)) key)
  | None => None
  end.
Proof.
  unfold expectedClassParameters. rewrite map_lookup_imap.
  now destruct (current !! key).
Qed.

(** C8: when Read of a DNS forward zone finds the object (status 200, a
    first element with the mapped keys as strings), the class parameters it
    stores have exactly the keys of the local class parameters; each has
    the first value retrieved for that key from the query string once
    "dnsptr" is removed from the retrieved map, and "" when none was
    retrieved; retrieved keys that are not local are dropped.  ImportState
    stores the same map. *)
Theorem class_parameters_recomputed d s b0 rest query :
  respond s "get" "rest/dns_zone_info" (Url.Add "dnszone_id" (DNSForwardZone.Id d) ∅)
    = Response 200 (b0 :: rest) ->
  Forall (fun key => is_Some (asString (b0 !! key))) dnszoneReadKeys ->
  asString (b0 !! "dnszone_class_parameters") = Some query ->
  let retrieved := delete "dnsptr" (Url.ParseQuery query) in
  let stored key :=
    match DNSForwardZone.class_parameters d !! key with
    | Some _ => Some (firstValue retrieved key)
    | None => None
    end in
  retrieved !! "dnsptr" = None /\
  (exists w, run (DNSForwardZone.resourcednsforwardzoneRead s) d = (w, Returned [])
             /\ forall key, DNSForwardZone.class_parameters (data w) !! key = stored key) /\
  (is_Some (asString (b0 !! "dnszone_type")) ->
   exists w, run (DNSForwardZone.resourcednsforwardzoneImportState s) d
             = (w, Returned (Some [data w], None))
             /\ forall key, DNSForwardZone.class_parameters (data w) !! key = stored key).
Proof.
  intros R K Q retrieved stored. split; [apply lookup_delete_eq|]. split.
  - destruct (dnszone_read_found _ _ _ _ R) as [Found _].
    eexists. split; [apply Found, dnszone_readFields_run, K|].
    intros key. cbn [data dnszoneReadResult DNSForwardZone.class_parameters].
    rewrite (stringAt_Some _ _ _ Q). apply expectedClassParameters_lookup.
  - intros T. destruct (dnszone_import_found _ _ _ _ R) as [Found _].
    eexists. split.
    + apply Found, dnszone_importFields_run. apply Forall_cons. split; assumption.
    + intros key. cbn [data dnszoneReadResult DNSForwardZone.class_parameters].
      rewrite (stringAt_Some _ _ _ Q). apply expectedClassParameters_lookup.
Qed.

Lemma zoneAnswer_keys :
  Forall (fun key => is_Some (asString (zoneAnswer !! key))) dnszoneImportKeys.
Proof. repeat (constructor; [eexists; vm_compute; reflexivity|]). constructor. Defined.

Lemma class_parameters_recomputed_witness :
  exists w,
    run (DNSForwardZone.resourcednsforwardzoneRead zoneAppliance) sampleZone = (w, Returned [])
    /\ DNSForwardZone.class_parameters (data w) !! "site" = Some "lyon"
    /\ DNSForwardZone.class_parameters (data w) !! "other" = None.
Proof.
  destruct (class_parameters_recomputed sampleZone zoneAppliance zoneAnswer []
              "site=lyon&site=nice&dnsptr=1&other=x")
    as (_ & (w & Run & Stored) & _).
  - reflexivity.
  - pose proof zoneAnswer_keys as K. apply Forall_cons in K as [_ K]. exact K.
  - reflexivity.
  - exists w. split; [exact Run|]. rewrite !Stored. split; reflexivity.
Defined.

(** ** Unchecked assertions in Read and ImportState *)



Lemma poolAnswer_keys :
  Forall (fun key => is_Some (asString (poolAnswer !! key))) (apppoolAssertedKeys poolAnswer).
Proof. repeat (constructor; [eexists; vm_compute; reflexivity|]). constructor. Defined.


(** The forwarders that Create sends come back from Read of an answer that
    echoes them. *)
Lemma forwarders_survive_create_then_read d s b0 rest :
  DNSForwardZone.forwarders d <> [] ->
  Forall (fun fwd => fwd <> "" /\ GoStrings.Contains fwd ";" = false) (DNSForwardZone.forwarders d) ->
  respond s "get" "rest/dns_zone_info" (Url.Add "dnszone_id" (DNSForwardZone.Id d) ∅)
    = Response 200 (b0 :: rest) ->
  Forall (fun key => is_Some (asString (b0 !! key))) dnszoneReadKeys ->
  asString (b0 !! "dnszone_forwarders") = Some (DNSForwardZone.fwdList (DNSForwardZone.forwarders d)) ->
  DNSForwardZone.forwarders (data (fst (run (DNSForwardZone.resourcednsforwardzoneRead s) d)))
  = DNSForwardZone.forwarders d.
Proof.
  intros N F R K E. destruct (dnszone_read_found _ _ _ _ R) as [Found _].
  rewrite (Found _ (dnszone_readFields_run _ _ K)).
  cbn [fst data dnszoneReadResult DNSForwardZone.forwarders].
  rewrite (stringAt_Some _ _ _ E).
  destruct (String.eqb_spec (DNSForwardZone.fwdList (DNSForwardZone.forwarders d)) "") as [Z|_].
  - reflexivity.
  - apply splitForwarders_fwdList; [assumption|].
    eapply Forall_impl; [exact F|]. now intros fwd [_ ?].
Qed.

(** The string that Create sends under "dnszone_forwarders". *)
Lemma dnszone_create_sends_fwdList d :
  DNSForwardZone.createParameters d !! "dnszone_forwarders"
  = Some [DNSForwardZone.fwdList (DNSForwardZone.forwarders d)].
Proof.
  unfold DNSForwardZone.createParameters. cbv zeta.
  rewrite lookup_Add_ne by distinct_keys. rewrite lookup_Add_eq.
  destruct (negb (String.eqb (DNSForwardZone.dnsview d) "#"));
    rewrite !lookup_Add_ne by distinct_keys; now rewrite lookup_empty.
Qed.

(** * Further properties of the handlers *)

(** ** Transport errors *)

Ltac handler_unfold :=
  unfold run,
    ApplicationPool.resourceapplicationpoolCreate, ApplicationPool.resourceapplicationpoolUpdate,
    ApplicationPool.resourceapplicationpoolDelete, ApplicationPool.resourceapplicationpoolRead,
    ApplicationPool.resourceapplicationpoolImportState,
    DNSForwardZone.resourcednsforwardzoneCreate, DNSForwardZone.resourcednsforwardzoneUpdate,
    DNSForwardZone.resourcednsforwardzoneDelete, DNSForwardZone.resourcednsforwardzoneRead,
    DNSForwardZone.resourcednsforwardzoneImportState,
    IPMAC.resourceipmacCreate, IPMAC.resourceipmacDelete, IPMAC.resourceipmacRead.

Ltac conjuncts := repeat match goal with |- _ /\ _ => split end.

(** X1. When s.Request fails with a transport error, every handler returns that
    error as it is, after the one request, and leaves the data untouched. *)
Theorem transport_error_is_returned s e pool zone ipmac :
  (710 <= Version s ->
   (respond s "post" "rest/app_pool_add" (ApplicationPool.createParameters pool)
      = TransportError e ->
    run (ApplicationPool.resourceapplicationpoolCreate s) pool =
    (mkWorld pool [mkRequest "post" "rest/app_pool_add" (ApplicationPool.createParameters pool)],
     Returned [e])) /\
   (respond s "put" "rest/app_pool_add" (ApplicationPool.updateParameters pool)
      = TransportError e ->
    run (ApplicationPool.resourceapplicationpoolUpdate s) pool =
    (mkWorld pool [mkRequest "put" "rest/app_pool_add" (ApplicationPool.updateParameters pool)],
     Returned [e])) /\
   (respond s "delete" "rest/app_pool_delete" (Url.Add "apppool_id" (ApplicationPool.Id pool) ∅)
      = TransportError e ->
    run (ApplicationPool.resourceapplicationpoolDelete s) pool =
    (mkWorld pool [mkRequest "delete" "rest/app_pool_delete"
                     (Url.Add "apppool_id" (ApplicationPool.Id pool) ∅)],
     Returned [e])) /\
   (respond s "get" "rest/app_pool_info" (Url.Add "apppool_id" (ApplicationPool.Id pool) ∅)
      = TransportError e ->
    run (ApplicationPool.resourceapplicationpoolRead s) pool =
    (mkWorld pool [mkRequest "get" "rest/app_pool_info"
                     (Url.Add "apppool_id" (ApplicationPool.Id pool) ∅)],
     Returned [e]) /\
    run (ApplicationPool.resourceapplicationpoolImportState s) pool =
    (mkWorld pool [mkRequest "get" "rest/app_pool_info"
                     (Url.Add "apppool_id" (ApplicationPool.Id pool) ∅)],
     Returned (None, Some e)))) /\
  ((respond s "post" "rest/dns_zone_add" (DNSForwardZone.createParameters zone)
      = TransportError e ->
    run (DNSForwardZone.resourcednsforwardzoneCreate s) zone =
    (mkWorld zone [mkRequest "post" "rest/dns_zone_add" (DNSForwardZone.createParameters zone)],
     Returned [e])) /\
   (respond s "put" "rest/dns_zone_add" (DNSForwardZone.updateParameters zone)
      = TransportError e ->
    run (DNSForwardZone.resourcednsforwardzoneUpdate s) zone =
    (mkWorld zone [mkRequest "put" "rest/dns_zone_add" (DNSForwardZone.updateParameters zone)],
     Returned [e])) /\
   (respond s "delete" "rest/dns_zone_delete" (Url.Add "dnszone_id" (DNSForwardZone.Id zone) ∅)
      = TransportError e ->
    run (DNSForwardZone.resourcednsforwardzoneDelete s) zone =
    (mkWorld zone [mkRequest "delete" "rest/dns_zone_delete"
                     (Url.Add "dnszone_id" (DNSForwardZone.Id zone) ∅)],
     Returned [e])) /\
   (respond s "get" "rest/dns_zone_info" (Url.Add "dnszone_id" (DNSForwardZone.Id zone) ∅)
      = TransportError e ->
    run (DNSForwardZone.resourcednsforwardzoneRead s) zone =
    (mkWorld zone [mkRequest "get" "rest/dns_zone_info"
                     (Url.Add "dnszone_id" (DNSForwardZone.Id zone) ∅)],
     Returned [e]) /\
    run (DNSForwardZone.resourcednsforwardzoneImportState s) zone =
    (mkWorld zone [mkRequest "get" "rest/dns_zone_info"
                     (Url.Add "dnszone_id" (DNSForwardZone.Id zone) ∅)],
     Returned (None, Some e)))) /\
  ((respond s "put" "rest/ip_add" (IPMAC.createParameters ipmac) = TransportError e ->
    run (IPMAC.resourceipmacCreate s) ipmac =
    (mkWorld ipmac [mkRequest "put" "rest/ip_add" (IPMAC.createParameters ipmac)], Returned [e])) /\
   (respond s "put" "rest/ip_add" (IPMAC.deleteParameters ipmac) = TransportError e ->
    run (IPMAC.resourceipmacDelete s) ipmac =
    (mkWorld ipmac [mkRequest "put" "rest/ip_add" (IPMAC.deleteParameters ipmac)], Returned [e])) /\
   (respond s "get" "rest/ip_address_info" (Url.Add "ip_id" (IPMAC.Id ipmac) ∅)
      = TransportError e ->
    run (IPMAC.resourceipmacRead s) ipmac =
    (mkWorld ipmac [mkRequest "get" "rest/ip_address_info" (Url.Add "ip_id" (IPMAC.Id ipmac) ∅)],
     Returned [e]))).
Proof.
  split; [intros V|split].
  - conjuncts; intros R; conjuncts; handler_unfold; handler_step;
      rewrite (version_guard_open _ V); handler_step; rewrite R; reflexivity.
  - conjuncts; intros R; conjuncts; handler_unfold; handler_step; rewrite R; reflexivity.
  - conjuncts; intros R; handler_unfold; handler_step; rewrite R; reflexivity.
Qed.

Lemma transport_error_is_returned_witness :
  run (ApplicationPool.resourceapplicationpoolRead unreachableAppliance) samplePool =
  (mkWorld samplePool [mkRequest "get" "rest/app_pool_info" (Url.Add "apppool_id" "12" ∅)],
   Returned ["dial tcp: connection refused"]) /\
  run (DNSForwardZone.resourcednsforwardzoneImportState unreachableAppliance) sampleZone =
  (mkWorld sampleZone [mkRequest "get" "rest/dns_zone_info" (Url.Add "dnszone_id" "5" ∅)],
   Returned (None, Some "dial tcp: connection refused")) /\
  run (IPMAC.resourceipmacDelete unreachableAppliance) sampleIPMAC =
  (mkWorld sampleIPMAC [mkRequest "put" "rest/ip_add" (IPMAC.deleteParameters sampleIPMAC)],
   Returned ["dial tcp: connection refused"]).
Proof.
  destruct (transport_error_is_returned unreachableAppliance "dial tcp: connection refused"
              samplePool sampleZone sampleIPMAC) as (A & B & C).
  destruct A as (_ & _ & _ & A); [cbn; lia|].
  destruct B as (_ & _ & _ & B). destruct C as (_ & C & _).
  split; [|split].
  - apply A. reflexivity.
  - apply B. reflexivity.
  - apply C. reflexivity.
Defined.

(** ** What a handler leaves alone *)

Section preservation.
Context {D X : Type} (P : D -> X).

Lemma preserves_ret {A} (a : A) : preserves P (mret a : M D A).
Proof. intros w. reflexivity. Qed.

Lemma preserves_get : preserves P (get : M D D).
Proof. intros w. reflexivity. Qed.

Lemma preserves_panic {A} : preserves P (panic : M D A).
Proof. intros w. reflexivity. Qed.

Lemma preserves_assertString x : preserves P (assertString x : M D string).
Proof. intros w. unfold assertString. now destruct (asString x). Qed.

Lemma preserves_Request s method service parameters :
  preserves P (Request s method service parameters : M D HTTPResult).
Proof. intros w. reflexivity. Qed.

Lemma preserves_modify (g : D -> D) : (forall d, P (g d) = P d) -> preserves P (modify g).
Proof. intros H w. apply H. Qed.

Lemma preserves_bind {A B} (m : M D A) (f : A -> M D B) :
  preserves P m -> (forall a, preserves P (f a)) -> preserves P (m ≫= f).
Proof.
  intros Hm Hf w. rewrite bind_unfold. specialize (Hm w).
  destruct (m w) as [w' [a|]]; cbn [fst] in *; [|exact Hm].
  now rewrite Hf.
Qed.

End preservation.

Section quiet.
Context {D : Type}.

Lemma sendsNothing_ret {A} (a : A) : sendsNothing (mret a : M D A).
Proof. intros w. reflexivity. Qed.

Lemma sendsNothing_get : sendsNothing (get : M D D).
Proof. intros w. reflexivity. Qed.

Lemma sendsNothing_panic {A} : sendsNothing (panic : M D A).
Proof. intros w. reflexivity. Qed.

Lemma sendsNothing_assertString x : sendsNothing (assertString x : M D string).
Proof. intros w. unfold assertString. now destruct (asString x). Qed.

Lemma sendsNothing_modify (g : D -> D) : sendsNothing (modify g).
Proof. intros w. reflexivity. Qed.

Lemma sendsNothing_bind {A B} (m : M D A) (f : A -> M D B) :
  sendsNothing m -> (forall a, sendsNothing (f a)) -> sendsNothing (m ≫= f).
Proof.
  intros Hm Hf w. rewrite bind_unfold. specialize (Hm w).
  destruct (m w) as [w' [a|]]; cbn [fst] in *; [|exact Hm].
  now rewrite Hf.
Qed.

End quiet.

(** The loop over the class parameters only computes. *)
Lemma computeClassParameters_pure current retrieved (w : World DNSForwardZone.ResourceData) :
  fst (DNSForwardZone.computeClassParameters current retrieved w) = w.
Proof.
  unfold DNSForwardZone.computeClassParameters.
  apply (map_fold_weak_ind
           (fun (r : M DNSForwardZone.ResourceData (gmap string string)) (_ : gmap string string) =>
              fst (r w) = w)).
  - reflexivity.
  - intros i x m r _ IH. rewrite bind_unfold.
    destruct (r w) as [w' [computed|]]; cbn [fst] in IH; subst w'; [|reflexivity].
    now destruct (retrieved !! i) as [[|rv0 rv]|].
Qed.

Ltac handler_cases :=
  match goal with
  | |- context [if ?c then _ else _] => destruct c
  | |- context [match ?x with _ => _ end] => destruct x
  end.

Ltac preserved leaf :=
  repeat first
    [ apply preserves_ret | apply preserves_get | apply preserves_panic
    | apply preserves_assertString | apply preserves_Request
    | apply preserves_bind; [|intros ?]
    | apply preserves_modify; intros ?; leaf
    | intros ?; rewrite computeClassParameters_pure; reflexivity
    | match goal with
      | |- preserves _ (if ?c then _ else _) => destruct c
      | |- preserves _ (match ?x with _ => _ end) => destruct x
      | |- preserves _ (let '(_, _) := ?x in _) => destruct x
      end ].

Ltac quiet :=
  repeat first
    [ apply sendsNothing_ret | apply sendsNothing_get | apply sendsNothing_panic
    | apply sendsNothing_assertString | apply sendsNothing_modify
    | apply sendsNothing_bind; [|intros ?]
    | intros ?; rewrite computeClassParameters_pure; reflexivity
    | match goal with
      | |- sendsNothing (if ?c then _ else _) => destruct c
      | |- sendsNothing (match ?x with _ => _ end) => destruct x
      end ].

Section written_fields.

Lemma apppool_writeField_Id key value d :
  ApplicationPool.Id (ApplicationPool.writeField key value d) = ApplicationPool.Id d.
Proof.
  destruct d, value; unfold ApplicationPool.writeField;
    repeat match goal with |- context [String.eqb key ?k] => destruct (String.eqb key k) end;
    reflexivity.
Qed.

Lemma apppool_writeField_ip_version key value d :
  String.eqb key "ip_version" = false ->
  ApplicationPool.ip_version (ApplicationPool.writeField key value d)
  = ApplicationPool.ip_version d.
Proof.
  intros N. destruct d, value; unfold ApplicationPool.writeField; rewrite ?N;
    repeat match goal with |- context [String.eqb key ?k] => destruct (String.eqb key k) end;
    reflexivity.
Qed.

Lemma apppool_writeField_affinity key value d :
  String.eqb key "affinity" = false ->
  ApplicationPool.affinity (ApplicationPool.writeField key value d)
  = ApplicationPool.affinity d.
Proof.
  intros N. destruct d, value; unfold ApplicationPool.writeField; rewrite ?N;
    repeat match goal with |- context [String.eqb key ?k] => destruct (String.eqb key k) end;
    reflexivity.
Qed.

Lemma dnszone_writeField_Id key value d :
  DNSForwardZone.Id (DNSForwardZone.writeField key value d) = DNSForwardZone.Id d.
Proof.
  destruct d, value; unfold DNSForwardZone.writeField;
    repeat match goal with |- context [String.eqb key ?k] => destruct (String.eqb key k) end;
    reflexivity.
Qed.

Lemma apppool_readFields_quiet b0 : sendsNothing (ApplicationPool.readFields b0).
Proof. unfold ApplicationPool.readFields, ApplicationPool.SetField. quiet. Qed.

Lemma apppool_importFields_quiet b0 : sendsNothing (ApplicationPool.importFields b0).
Proof. unfold ApplicationPool.importFields, ApplicationPool.SetField. quiet. Qed.

Lemma dnszone_readFields_quiet b0 : sendsNothing (DNSForwardZone.readFields b0).
Proof.
  unfold DNSForwardZone.readFields, DNSForwardZone.updateForward,
    DNSForwardZone.updateClassParameters, DNSForwardZone.SetField. quiet.
Qed.

Lemma dnszone_importFields_quiet b0 : sendsNothing (DNSForwardZone.importFields b0).
Proof.
  unfold DNSForwardZone.importFields, DNSForwardZone.updateForward,
    DNSForwardZone.updateClassParameters, DNSForwardZone.SetField. quiet.
Qed.

End written_fields.

(** ** One request per handler *)

Ltac after_request :=
  match goal with
  | |- sent (fst (?m ?w)) = _ =>
      let Q := fresh in
      assert (Q : sendsNothing m);
      [ quiet; auto using apppool_readFields_quiet, apppool_importFields_quiet,
                 dnszone_readFields_quiet, dnszone_importFields_quiet
      | rewrite (Q w); reflexivity ]
  end.

(** X2. Whatever the appliance answers, a handler sends exactly one request:
    the verb, service and parameters below.  For the application pool this
    holds from version 710 on. *)
Theorem one_request_per_handler s pool zone ipmac :
  (710 <= Version s ->
   sent (fst (run (ApplicationPool.resourceapplicationpoolCreate s) pool)) =
     [mkRequest "post" "rest/app_pool_add" (ApplicationPool.createParameters pool)] /\
   sent (fst (run (ApplicationPool.resourceapplicationpoolUpdate s) pool)) =
     [mkRequest "put" "rest/app_pool_add" (ApplicationPool.updateParameters pool)] /\
   sent (fst (run (ApplicationPool.resourceapplicationpoolDelete s) pool)) =
     [mkRequest "delete" "rest/app_pool_delete"
        (Url.Add "apppool_id" (ApplicationPool.Id pool) ∅)] /\
   sent (fst (run (ApplicationPool.resourceapplicationpoolRead s) pool)) =
     [mkRequest "get" "rest/app_pool_info" (Url.Add "apppool_id" (ApplicationPool.Id pool) ∅)] /\
   sent (fst (run (ApplicationPool.resourceapplicationpoolImportState s) pool)) =
     [mkRequest "get" "rest/app_pool_info" (Url.Add "apppool_id" (ApplicationPool.Id pool) ∅)]) /\
  (sent (fst (run (DNSForwardZone.resourcednsforwardzoneCreate s) zone)) =
     [mkRequest "post" "rest/dns_zone_add" (DNSForwardZone.createParameters zone)] /\
   sent (fst (run (DNSForwardZone.resourcednsforwardzoneUpdate s) zone)) =
     [mkRequest "put" "rest/dns_zone_add" (DNSForwardZone.updateParameters zone)] /\
   sent (fst (run (DNSForwardZone.resourcednsforwardzoneDelete s) zone)) =
     [mkRequest "delete" "rest/dns_zone_delete"
        (Url.Add "dnszone_id" (DNSForwardZone.Id zone) ∅)] /\
   sent (fst (run (DNSForwardZone.resourcednsforwardzoneRead s) zone)) =
     [mkRequest "get" "rest/dns_zone_info" (Url.Add "dnszone_id" (DNSForwardZone.Id zone) ∅)] /\
   sent (fst (run (DNSForwardZone.resourcednsforwardzoneImportState s) zone)) =
     [mkRequest "get" "rest/dns_zone_info" (Url.Add "dnszone_id" (DNSForwardZone.Id zone) ∅)]) /\
  (sent (fst (run (IPMAC.resourceipmacCreate s) ipmac)) =
     [mkRequest "put" "rest/ip_add" (IPMAC.createParameters ipmac)] /\
   sent (fst (run (IPMAC.resourceipmacDelete s) ipmac)) =
     [mkRequest "put" "rest/ip_add" (IPMAC.deleteParameters ipmac)] /\
   sent (fst (run (IPMAC.resourceipmacRead s) ipmac)) =
     [mkRequest "get" "rest/ip_address_info" (Url.Add "ip_id" (IPMAC.Id ipmac) ∅)]).
Proof.
  split; [intros V|split]; conjuncts; handler_unfold; handler_step;
    rewrite ?(version_guard_open s) by assumption; handler_step;
    unfold ApplicationPool.checkAnswer, DNSForwardZone.checkAnswer,
      ApplicationPool.SetId, DNSForwardZone.SetId, IPMAC.SetId;
    after_request.
Qed.

Lemma one_request_per_handler_witness :
  sent (fst (run (ApplicationPool.resourceapplicationpoolRead poolAppliance) samplePool)) =
  [mkRequest "get" "rest/app_pool_info" (Url.Add "apppool_id" "12" ∅)].
Proof.
  destruct (one_request_per_handler poolAppliance samplePool sampleZone sampleIPMAC)
    as (A & _).
  apply A. cbn; lia.
Defined.

(** ** Create, Update and Delete write nothing but the id *)

Ltac only_id :=
  handler_unfold; handler_step;
  repeat first
    [ progress handler_step
    | rewrite apppool_checkAnswer | rewrite dnszone_checkAnswer
    | progress unfold ApplicationPool.SetId, DNSForwardZone.SetId, IPMAC.SetId
    | handler_cases ];
  cbn [fst data]; eexists; reflexivity.

(** X3. Whatever the appliance answers, the data that Create, Update and Delete
    leave differ from the data they were given in the id at most. *)
Theorem create_update_delete_write_only_id s pool zone ipmac :
  (exists id, data (fst (run (ApplicationPool.resourceapplicationpoolCreate s) pool))
              = ApplicationPool.withId id pool) /\
  (exists id, data (fst (run (ApplicationPool.resourceapplicationpoolUpdate s) pool))
              = ApplicationPool.withId id pool) /\
  (exists id, data (fst (run (ApplicationPool.resourceapplicationpoolDelete s) pool))
              = ApplicationPool.withId id pool) /\
  (exists id, data (fst (run (DNSForwardZone.resourcednsforwardzoneCreate s) zone))
              = DNSForwardZone.withId id zone) /\
  (exists id, data (fst (run (DNSForwardZone.resourcednsforwardzoneUpdate s) zone))
              = DNSForwardZone.withId id zone) /\
  (exists id, data (fst (run (DNSForwardZone.resourcednsforwardzoneDelete s) zone))
              = DNSForwardZone.withId id zone) /\
  (exists id, data (fst (run (IPMAC.resourceipmacCreate s) ipmac)) = IPMAC.withId id ipmac) /\
  (exists id, data (fst (run (IPMAC.resourceipmacDelete s) ipmac)) = IPMAC.withId id ipmac).
Proof.
  destruct pool, zone, ipmac. conjuncts; only_id.
Qed.

(** ** Read and ImportState keep the identity of the object *)

Ltac kept leaf :=
  handler_unfold;
  match goal with
  | |- ?P (data (fst (?m (mkWorld ?d [])))) = ?P ?d =>
      let Q := fresh in
      assert (Q : preserves P m);
      [ unfold ApplicationPool.readFields, ApplicationPool.importFields,
          DNSForwardZone.readFields, DNSForwardZone.importFields,
          DNSForwardZone.updateForward, DNSForwardZone.updateClassParameters,
          ApplicationPool.SetField, DNSForwardZone.SetField;
        preserved leaf
      | exact (Q (mkWorld d [])) ]
  end.

(** X4. Whatever the appliance answers, and also when the handler panics, Read
    and ImportState never change the id; for the application pool they never
    change ip_version either, and ImportState never changes the affinity
    flag (it writes "affinity_state", a key the schema does not have). *)
Theorem read_import_keep_identity s pool zone :
  (ApplicationPool.Id (data (fst (run (ApplicationPool.resourceapplicationpoolRead s) pool)))
     = ApplicationPool.Id pool /\
   ApplicationPool.ip_version
     (data (fst (run (ApplicationPool.resourceapplicationpoolRead s) pool)))
     = ApplicationPool.ip_version pool) /\
  (ApplicationPool.Id
     (data (fst (run (ApplicationPool.resourceapplicationpoolImportState s) pool)))
     = ApplicationPool.Id pool /\
   ApplicationPool.ip_version
     (data (fst (run (ApplicationPool.resourceapplicationpoolImportState s) pool)))
     = ApplicationPool.ip_version pool /\
   ApplicationPool.affinity
     (data (fst (run (ApplicationPool.resourceapplicationpoolImportState s) pool)))
     = ApplicationPool.affinity pool) /\
  DNSForwardZone.Id (data (fst (run (DNSForwardZone.resourcednsforwardzoneRead s) zone)))
    = DNSForwardZone.Id zone /\
  DNSForwardZone.Id (data (fst (run (DNSForwardZone.resourcednsforwardzoneImportState s) zone)))
    = DNSForwardZone.Id zone.
Proof.
  conjuncts.
  - kept ltac:(apply apppool_writeField_Id).
  - kept ltac:(apply apppool_writeField_ip_version; reflexivity).
  - kept ltac:(apply apppool_writeField_Id).
  - kept ltac:(apply apppool_writeField_ip_version; reflexivity).
  - kept ltac:(apply apppool_writeField_affinity; reflexivity).
  - kept ltac:(apply dnszone_writeField_Id).
  - kept ltac:(apply dnszone_writeField_Id).
Qed.

(** ** The fall-through of Delete of an IP/MAC association *)

(** X5. On an answer with status 200 or 201 whose first element has no string
    "ret_oid", resourceipmacDelete returns nil diagnostics and keeps the
    id: the deletion is reported as done and the object stays in the
    state. *)
Theorem ipmac_delete_without_id_returns_nil d s st b0 rest :
  respond s "put" "rest/ip_add" (IPMAC.deleteParameters d) = Response st (b0 :: rest) ->
  st = 200 \/ st = 201 ->
  asString (b0 !! "ret_oid") = None ->
  run (IPMAC.resourceipmacDelete s) d =
  (mkWorld d [mkRequest "put" "rest/ip_add" (IPMAC.deleteParameters d)], Returned []).
Proof.
  intros R S E. rewrite (ipmac_delete_run _ _ _ _ R). cbn zeta.
  replace ((st =? 200) || (st =? 201)) with true
    by (destruct S; subst; reflexivity).
  now rewrite E.
Qed.

Lemma ipmac_delete_without_id_returns_nil_witness :
  run (IPMAC.resourceipmacDelete (answering 710 (Response 200 [∅]))) sampleIPMAC =
  (mkWorld sampleIPMAC [mkRequest "put" "rest/ip_add" (IPMAC.deleteParameters sampleIPMAC)],
   Returned []).
Proof.
  apply (ipmac_delete_without_id_returns_nil sampleIPMAC (answering 710 (Response 200 [∅]))
           200 ∅ []).
  - reflexivity.
  - left; reflexivity.
  - reflexivity.
Defined.

(** ** Update *)

(** X6. On an answer with status [st] and decoded body [buf], Update of the
    application pool (version 710 or later) and of the DNS forward zone
    replaces the stored id by the "ret_oid" of the first element and returns
    nil when the status is 200 or 201 and that field is a string; otherwise
    it keeps the data and returns one error, with the "errmsg" of the first
    element when it is a string. *)
Theorem update_answer_interpretation s st buf pool zone :
  (710 <= Version s ->
   respond s "put" "rest/app_pool_add" (ApplicationPool.updateParameters pool) = Response st buf ->
   run (ApplicationPool.resourceapplicationpoolUpdate s) pool =
   let requests := [mkRequest "put" "rest/app_pool_add" (ApplicationPool.updateParameters pool)] in
   match createdId st buf with
   | Some oid => (mkWorld (ApplicationPool.withId oid pool) requests, Returned [])
   | None =>
       (mkWorld pool requests,
        Returned [match firstString buf "errmsg" with
                  | Some errMsg => "Unable to update application pool: "
                                   +:+ ApplicationPool.name pool +:+ " (" +:+ errMsg +:+ ")"
                  | None => "Unable to update application pool: "
                            +:+ ApplicationPool.name pool +:+ nl
                  end])
   end) /\
  (respond s "put" "rest/dns_zone_add" (DNSForwardZone.updateParameters zone) = Response st buf ->
   run (DNSForwardZone.resourcednsforwardzoneUpdate s) zone =
   let requests := [mkRequest "put" "rest/dns_zone_add" (DNSForwardZone.updateParameters zone)] in
   match createdId st buf with
   | Some oid => (mkWorld (DNSForwardZone.withId oid zone) requests, Returned [])
   | None =>
       (mkWorld zone requests,
        Returned [match firstString buf "errmsg" with
                  | Some errMsg => "Unable to update DNS forward zone: "
                                   +:+ DNSForwardZone.name zone +:+ " (" +:+ errMsg +:+ ")"
                  | None => "Unable to update DNS forward zone: "
                            +:+ DNSForwardZone.name zone +:+ nl
                  end])
   end).
Proof.
  split.
  - intros V R. rewrite (apppool_update_run _ _ _ _ V R), apppool_checkAnswer.
    cbn [data sent]. reflexivity.
  - intros R. rewrite (dnszone_update_run _ _ _ _ R), dnszone_checkAnswer.
    cbn [data sent]. reflexivity.
Qed.

Lemma update_answer_interpretation_witness :
  run (ApplicationPool.resourceapplicationpoolUpdate acceptingAppliance) samplePool =
  (mkWorld (ApplicationPool.withId "77" samplePool)
     [mkRequest "put" "rest/app_pool_add" (ApplicationPool.updateParameters samplePool)],
   Returned []) /\
  run (DNSForwardZone.resourcednsforwardzoneUpdate refusingAppliance) sampleZone =
  (mkWorld sampleZone
     [mkRequest "put" "rest/dns_zone_add" (DNSForwardZone.updateParameters sampleZone)],
   Returned ["Unable to update DNS forward zone: example.org (boom)"]).
Proof.
  split.
  - destruct (update_answer_interpretation acceptingAppliance 201
                [{["ret_oid" := JString "77"]}] samplePool sampleZone) as (A & _).
    apply A; [cbn; lia | reflexivity].
  - destruct (update_answer_interpretation refusingAppliance 500
                [{["errmsg" := JString "boom"]}] samplePool sampleZone) as (_ & B).
    apply B; reflexivity.
Defined.

(** ** What a successful Read has seen *)

Section read_success.
Import Diag.

Lemma keys_decided (b0 : jobject) keys :
  Forall (fun key => is_Some (asString (b0 !! key))) keys \/
  Exists (fun key => asString (b0 !! key) = None) keys.
Proof.
  induction keys as [|key keys [IH|IH]].
  - left. constructor.
  - destruct (asString (b0 !! key)) eqn:E.
    + left. constructor; [rewrite E; eauto | assumption].
    + right. now constructor.
  - right. now constructor 2.
Qed.

(** Read of a DNS forward zone returns nil only on a 200 answer whose first
    element has every asserted key as a string. *)
Lemma dnszone_read_success s d w :
  run (DNSForwardZone.resourcednsforwardzoneRead s) d = (w, Returned []) ->
  exists b0 rest,
    respond s "get" "rest/dns_zone_info" (Url.Add "dnszone_id" (DNSForwardZone.Id d) ∅)
      = Response 200 (b0 :: rest)
    /\ Forall (fun key => is_Some (asString (b0 !! key))) dnszoneReadKeys
    /\ w = mkWorld (dnszoneReadResult b0 d)
             [mkRequest "get" "rest/dns_zone_info"
                (Url.Add "dnszone_id" (DNSForwardZone.Id d) ∅)].
Proof.
  intros H.
  destruct (respond s "get" "rest/dns_zone_info" (Url.Add "dnszone_id" (DNSForwardZone.Id d) ∅))
    as [e|st buf] eqn:R.
  { revert H. handler_unfold. handler_step. rewrite R. discriminate. }
  destruct (Z.eqb_spec st 200) as [->|N]; [destruct buf as [|b0 rest]|].
  - rewrite (dnszone_read_unresolved _ _ _ _ R) in H by now right. discriminate.
  - exists b0, rest. split; [reflexivity|].
    destruct (dnszone_read_found _ _ _ _ R) as [Found Panics].
    destruct (keys_decided b0 dnszoneReadKeys) as [K|K].
    + split; [assumption|]. rewrite (Found _ (dnszone_readFields_run _ _ K)) in H.
      now injection H as <-.
    + apply (f_equal snd) in H. cbn [snd] in H.
      rewrite (Panics (dnszone_readFields_panics _ _ K)) in H. discriminate.
  - rewrite (dnszone_read_unresolved _ _ _ _ R) in H by now left. discriminate.
Qed.

Lemma apppool_version_guard_closed_read s d w :
  Version s < 710 ->
  run (ApplicationPool.resourceapplicationpoolRead s) d = (w, Returned []) -> False.
Proof.
  intros V. handler_unfold. handler_step. rewrite (version_guard_closed _ V).
  handler_step. discriminate.
Qed.

Lemma apppool_read_success s d w :
  run (ApplicationPool.resourceapplicationpoolRead s) d = (w, Returned []) ->
  710 <= Version s /\
  exists b0 rest,
    respond s "get" "rest/app_pool_info" (Url.Add "apppool_id" (ApplicationPool.Id d) ∅)
      = Response 200 (b0 :: rest)
    /\ Forall (fun key => is_Some (asString (b0 !! key))) (apppoolAssertedKeys b0)
    /\ w = mkWorld (apppoolReadResult b0 d)
             [mkRequest "get" "rest/app_pool_info"
                (Url.Add "apppool_id" (ApplicationPool.Id d) ∅)].
Proof.
  intros H.
  destruct (Z.ltb_spec (Version s) 710) as [V|V].
  { destruct (apppool_version_guard_closed_read s d w V H). }
  split; [assumption|].
  destruct (respond s "get" "rest/app_pool_info" (Url.Add "apppool_id" (ApplicationPool.Id d) ∅))
    as [e|st buf] eqn:R.
  { revert H. handler_unfold. handler_step. rewrite (version_guard_open _ V).
    handler_step. rewrite R. discriminate. }
  destruct (Z.eqb_spec st 200) as [->|N]; [destruct buf as [|b0 rest]|].
  - rewrite (apppool_read_unresolved _ _ _ _ V R) in H by now right. discriminate.
  - exists b0, rest. split; [reflexivity|].
    destruct (apppool_read_found _ _ _ _ V R) as [Found Panics].
    destruct (keys_decided b0 (apppoolAssertedKeys b0)) as [K|K].
    + split; [assumption|]. rewrite (Found _ (apppool_readFields_run _ _ K)) in H.
      now injection H as <-.
    + apply (f_equal snd) in H. cbn [snd] in H.
      rewrite (Panics (apppool_readFields_panics _ _ K)) in H. discriminate.
  - rewrite (apppool_read_unresolved _ _ _ _ V R) in H by now left. discriminate.
Qed.

End read_success.

(** ** Two appliances that hold the sample objects *)

Lemma zoneAppliance_reads d :
  run (DNSForwardZone.resourcednsforwardzoneRead zoneAppliance) d =
  (mkWorld (dnszoneReadResult zoneAnswer d)
     [mkRequest "get" "rest/dns_zone_info" (Url.Add "dnszone_id" (DNSForwardZone.Id d) ∅)],
   Returned []).
Proof.
  destruct (dnszone_read_found d zoneAppliance zoneAnswer [] eq_refl) as [Found _].
  apply Found, dnszone_readFields_run.
  pose proof zoneAnswer_keys as K. apply Forall_cons in K as [_ K]. exact K.
Qed.

Lemma poolAppliance_reads d :
  run (ApplicationPool.resourceapplicationpoolRead poolAppliance) d =
  (mkWorld (apppoolReadResult poolAnswer d)
     [mkRequest "get" "rest/app_pool_info" (Url.Add "apppool_id" (ApplicationPool.Id d) ∅)],
   Returned []).
Proof.
  destruct (apppool_read_found d poolAppliance poolAnswer []) as [Found _];
    [cbn; lia | reflexivity |].
  apply Found, apppool_readFields_run, poolAnswer_keys.
Qed.

(** ** Reading twice *)

Section read_twice.

Lemma expectedClassParameters_twice current query :
  expectedClassParameters (expectedClassParameters current query) query
  = expectedClassParameters current query.
Proof.
  apply map_eq. intros key. rewrite !expectedClassParameters_lookup.
  now destruct (current !! key).
Qed.

Lemma dnszoneReadResult_twice b0 d :
  dnszoneReadResult b0 (dnszoneReadResult b0 d) = dnszoneReadResult b0 d.
Proof.
  unfold dnszoneReadResult.
  cbn [DNSForwardZone.Id DNSForwardZone.forwarders DNSForwardZone.class_parameters].
  rewrite expectedClassParameters_twice.
  now destruct (String.eqb (stringAt b0 "dnszone_forwarders") "").
Qed.

Lemma apppoolReadResult_twice b0 d :
  apppoolReadResult b0 (apppoolReadResult b0 d) = apppoolReadResult b0 d.
Proof.
  unfold apppoolReadResult. cbv zeta.
  cbn [ApplicationPool.Id ApplicationPool.ip_version ApplicationPool.affinity_session_duration
       ApplicationPool.best_active_nodes].
  destruct (String.eqb (stringAt b0 "apppool_affinity_state") "0");
    destruct (String.eqb (stringAt b0 "apppool_best_active_nodes") ""); reflexivity.
Qed.

End read_twice.

(** X7. Read is idempotent: when Read of an application pool or of a DNS
    forward zone returns nil, a second Read against the same appliance,
    started on the data the first one left, sends the same request and
    leaves these data as they are. *)
Theorem read_is_idempotent s pool zone wpool wzone :
  (run (ApplicationPool.resourceapplicationpoolRead s) pool = (wpool, Returned []) ->
   run (ApplicationPool.resourceapplicationpoolRead s) (data wpool) = (wpool, Returned [])) /\
  (run (DNSForwardZone.resourcednsforwardzoneRead s) zone = (wzone, Returned []) ->
   run (DNSForwardZone.resourcednsforwardzoneRead s) (data wzone) = (wzone, Returned [])).
Proof.
  split; intros H.
  - apply apppool_read_success in H as (V & b0 & rest & R & K & ->). cbn [data].
    destruct (apppool_read_found (apppoolReadResult b0 pool) s b0 rest V R) as [Found _].
    rewrite (Found _ (apppool_readFields_run _ _ K)). cbn [data sent].
    now rewrite apppoolReadResult_twice.
  - apply dnszone_read_success in H as (b0 & rest & R & K & ->). cbn [data].
    destruct (dnszone_read_found (dnszoneReadResult b0 zone) s b0 rest R) as [Found _].
    rewrite (Found _ (dnszone_readFields_run _ _ K)). cbn [data sent].
    now rewrite dnszoneReadResult_twice.
Qed.

Lemma read_is_idempotent_witness :
  run (ApplicationPool.resourceapplicationpoolRead poolAppliance)
    (apppoolReadResult poolAnswer samplePool) =
  (mkWorld (apppoolReadResult poolAnswer samplePool)
     [mkRequest "get" "rest/app_pool_info" (Url.Add "apppool_id" "12" ∅)],
   Returned []) /\
  run (DNSForwardZone.resourcednsforwardzoneRead zoneAppliance)
    (dnszoneReadResult zoneAnswer sampleZone) =
  (mkWorld (dnszoneReadResult zoneAnswer sampleZone)
     [mkRequest "get" "rest/dns_zone_info" (Url.Add "dnszone_id" "5" ∅)],
   Returned []).
Proof.
  destruct (read_is_idempotent poolAppliance samplePool sampleZone
              (mkWorld (apppoolReadResult poolAnswer samplePool)
                 [mkRequest "get" "rest/app_pool_info" (Url.Add "apppool_id" "12" ∅)])
              (mkWorld sampleZone [])) as (A & _).
  destruct (read_is_idempotent zoneAppliance samplePool sampleZone
              (mkWorld samplePool [])
              (mkWorld (dnszoneReadResult zoneAnswer sampleZone)
                 [mkRequest "get" "rest/dns_zone_info" (Url.Add "dnszone_id" "5" ∅)]))
    as (_ & B).
  split.
  - apply A. apply (poolAppliance_reads samplePool).
  - apply B. apply (zoneAppliance_reads sampleZone).
Defined.

(** ** The forward mode and the forwarders after Read *)

Section lower_case.

Lemma lower_byte_twice c : GoStrings.lower_byte (GoStrings.lower_byte c) = GoStrings.lower_byte c.
Proof. destruct c as [[] [] [] [] [] [] [] []]; reflexivity. Qed.

Lemma ToLower_twice x : GoStrings.ToLower (GoStrings.ToLower x) = GoStrings.ToLower x.
Proof.
  induction x as [|c x IH]; [reflexivity|].
  cbn [GoStrings.ToLower]. now rewrite lower_byte_twice, IH.
Qed.

Lemma ToLower_empty x : GoStrings.ToLower x = "" -> x = "".
Proof. now destruct x. Qed.

Lemma split_scan_nonempty sep x skip cur : GoStrings.split_scan sep x skip cur <> [].
Proof.
  revert skip cur. induction x as [|c x IH]; intros skip cur; [discriminate|].
  cbn [GoStrings.split_scan]. destruct skip; [|apply IH].
  destruct (String.prefix sep (String c x)); [discriminate|apply IH].
Qed.

Lemma splitForwarders_nonempty x : DNSForwardZone.splitForwarders x <> [].
Proof. apply split_scan_nonempty. Qed.

End lower_case.

(** X8. After a Read of a DNS forward zone that returns nil, the forward mode
    is never empty and is in lower case (an empty mode of the appliance is
    stored as "none"), and a list of forwarders that was not empty is not
    empty: an empty "dnszone_forwarders" leaves the local list as it was. *)
Theorem read_normalises_forward s d w :
  run (DNSForwardZone.resourcednsforwardzoneRead s) d = (w, Returned []) ->
  DNSForwardZone.forward (data w) <> "" /\
  GoStrings.ToLower (DNSForwardZone.forward (data w)) = DNSForwardZone.forward (data w) /\
  (DNSForwardZone.forwarders d <> [] -> DNSForwardZone.forwarders (data w) <> []).
Proof.
  intros H. apply dnszone_read_success in H as (b0 & rest & _ & _ & ->).
  cbn [data dnszoneReadResult DNSForwardZone.forward DNSForwardZone.forwarders].
  split; [|split].
  - destruct (String.eqb_spec (stringAt b0 "dnszone_forward") "") as [E|N]; [discriminate|].
    intros E. now apply ToLower_empty in E.
  - destruct (String.eqb (stringAt b0 "dnszone_forward") ""); [reflexivity|].
    apply ToLower_twice.
  - intros N. destruct (String.eqb (stringAt b0 "dnszone_forwarders") ""); [assumption|].
    apply splitForwarders_nonempty.
Qed.

Lemma read_normalises_forward_witness :
  DNSForwardZone.forward (dnszoneReadResult zoneAnswer sampleZone) <> "" /\
  GoStrings.ToLower (DNSForwardZone.forward (dnszoneReadResult zoneAnswer sampleZone))
  = DNSForwardZone.forward (dnszoneReadResult zoneAnswer sampleZone) /\
  DNSForwardZone.forwarders (dnszoneReadResult zoneAnswer sampleZone) <> [].
Proof.
  destruct (read_normalises_forward zoneAppliance sampleZone _ (zoneAppliance_reads sampleZone))
    as (A & B & C).
  split; [exact A | split; [exact B | apply C; discriminate]].
Defined.

(** ** The local key "dnsptr" *)

(** X9. A local class parameter named "dnsptr" is read back as "" by every Read
    that returns nil, whatever the appliance holds for it; the keys of the
    class parameters are those the data had. *)
Theorem read_blanks_dnsptr s d w value :
  run (DNSForwardZone.resourcednsforwardzoneRead s) d = (w, Returned []) ->
  DNSForwardZone.class_parameters d !! "dnsptr" = Some value ->
  DNSForwardZone.class_parameters (data w) !! "dnsptr" = Some "" /\
  dom (DNSForwardZone.class_parameters (data w)) = dom (DNSForwardZone.class_parameters d).
Proof.
  intros H L. apply dnszone_read_success in H as (b0 & rest & _ & _ & ->).
  cbn [data dnszoneReadResult DNSForwardZone.class_parameters]. split.
  - rewrite expectedClassParameters_lookup, L. unfold firstValue.
    now rewrite lookup_delete_eq.
  - apply set_eq. intros key. rewrite !elem_of_dom, expectedClassParameters_lookup.
    destruct (DNSForwardZone.class_parameters d !! key); split; intros [? ?]; eauto; discriminate.
Qed.

Lemma read_blanks_dnsptr_witness :
  DNSForwardZone.class_parameters (dnszoneReadResult zoneAnswer ptrZone) !! "dnsptr" = Some "".
Proof.
  destruct (read_blanks_dnsptr zoneAppliance ptrZone _ "1" (zoneAppliance_reads ptrZone))
    as [A _]; [reflexivity|].
  exact A.
Defined.

(** ** ImportState against Read, for the DNS forward zone *)

(** X10. When ImportState of a DNS forward zone succeeds, Read on the same data
    and appliance returns nil and leaves the very data ImportState left and
    returned: the "type" that ImportState writes is not a key of the
    schema. *)
Theorem dnszone_import_matches_read s d r :
  snd (run (DNSForwardZone.resourcednsforwardzoneImportState s) d) = Returned (Some r, None) ->
  run (DNSForwardZone.resourcednsforwardzoneRead s) d =
    (fst (run (DNSForwardZone.resourcednsforwardzoneImportState s) d), Returned []) /\
  r = [data (fst (run (DNSForwardZone.resourcednsforwardzoneImportState s) d))].
Proof.
  intros H.
  destruct (respond s "get" "rest/dns_zone_info" (Url.Add "dnszone_id" (DNSForwardZone.Id d) ∅))
    as [e|st buf] eqn:R.
  { revert H. handler_unfold. handler_step. rewrite R. discriminate. }
  assert (Found : st = 200 /\ exists b0 rest, buf = b0 :: rest).
  { revert H. handler_unfold. handler_step. rewrite R.
    destruct (Z.eqb_spec st 200) as [->|N]; destruct buf as [|b0 rest];
      try discriminate. eauto. }
  destruct Found as (-> & b0 & rest & ->).
  destruct (dnszone_import_found _ _ _ _ R) as [ImportOk ImportPanics].
  destruct (dnszone_read_found _ _ _ _ R) as [ReadOk _].
  destruct (keys_decided b0 dnszoneImportKeys) as [K|K].
  - rewrite (ImportOk _ (dnszone_importFields_run _ _ K)) in *. cbn [fst snd data] in *.
    split; [|congruence].
    apply ReadOk, dnszone_readFields_run. now apply Forall_cons in K as [_ K].
  - rewrite (ImportPanics (dnszone_importFields_panics _ _ K)) in H. discriminate.
Qed.

Lemma dnszone_import_matches_read_witness :
  run (DNSForwardZone.resourcednsforwardzoneRead zoneAppliance) sampleZone =
  (fst (run (DNSForwardZone.resourcednsforwardzoneImportState zoneAppliance) sampleZone),
   Returned []).
Proof.
  apply (dnszone_import_matches_read zoneAppliance sampleZone
           [dnszoneReadResult zoneAnswer sampleZone]).
  destruct (dnszone_import_found sampleZone zoneAppliance zoneAnswer [] eq_refl) as [Found _].
  rewrite (Found _ (dnszone_importFields_run _ _ zoneAnswer_keys)). reflexivity.
Defined.

(** ** The MAC address, from Create to Read *)

Lemma ipmac_create_sends_lower_mac d :
  firstValue (IPMAC.createParameters d) "mac_addr" = GoStrings.ToLower (IPMAC.mac d).
Proof.
  unfold firstValue, IPMAC.createParameters. cbv zeta.
  rewrite lookup_Add_ne by distinct_keys. rewrite lookup_Add_eq.
  rewrite !lookup_Add_ne by distinct_keys. now rewrite lookup_empty.
Qed.

(** X11. Read of an IP/MAC association finds its object in a 200 or 201 answer
    whose "mac_addr" is the one Create sent, whatever the case of the
    letters of the local MAC address: it returns nil and keeps the data,
    the id included. *)
Theorem ipmac_read_finds_created_mac s d st b0 rest :
  respond s "get" "rest/ip_address_info" (Url.Add "ip_id" (IPMAC.Id d) ∅)
    = Response st (b0 :: rest) ->
  st = 200 \/ st = 201 ->
  carries b0 "mac_addr" (IPMAC.createParameters d) "mac_addr" ->
  run (IPMAC.resourceipmacRead s) d =
  (mkWorld d [mkRequest "get" "rest/ip_address_info" (Url.Add "ip_id" (IPMAC.Id d) ∅)],
   Returned []).
Proof.
  intros R S C. rewrite (ipmac_read_run _ _ _ _ R).
  unfold carries in C. rewrite ipmac_create_sends_lower_mac in C.
  unfold ipmacResolved, firstString. cbn [head mbind option_bind]. rewrite C.
  rewrite ToLower_twice, String.eqb_refl.
  replace ((st =? 200) || (st =? 201)) with true by (destruct S; subst; reflexivity).
  reflexivity.
Qed.

Lemma ipmac_read_finds_created_mac_witness :
  run (IPMAC.resourceipmacRead macAppliance) sampleIPMAC =
  (mkWorld sampleIPMAC [mkRequest "get" "rest/ip_address_info" (Url.Add "ip_id" "9" ∅)],
   Returned []).
Proof.
  apply (ipmac_read_finds_created_mac macAppliance sampleIPMAC 200
           {["mac_addr" := JString "aa:bb:cc:dd:ee:ff"]} []).
  - reflexivity.
  - left; reflexivity.
  - reflexivity.
Defined.

(** ** Integers, from strconv.Itoa to strconv.Atoi *)

Ltac digit_value :=
  match goal with
  | |- context [Strconv.digit_of ?c] =>
      let v := eval vm_compute in (Strconv.digit_of c) in
      change (Strconv.digit_of c) with v
  end.

Section decimal.

Lemma digits_of_uint_acc (d : Decimal.uint) (acc : positive) :
  Strconv.digits (NilEmpty.string_of_uint d) (Z.pos acc) = Some (Z.pos (Pos.of_uint_acc d acc)).
Proof.
  revert acc. induction d; intros acc; cbn [NilEmpty.string_of_uint Strconv.digits Pos.of_uint_acc];
    [reflexivity|..];
    digit_value; rewrite <- IHd; f_equal; lia.
Qed.

Lemma digits_of_uint (d : Decimal.uint) :
  Strconv.digits (NilEmpty.string_of_uint d) 0 = Some (Z.of_N (Pos.of_uint d)).
Proof.
  induction d; cbn [NilEmpty.string_of_uint Strconv.digits Pos.of_uint];
    [reflexivity|..];
    digit_value; try exact IHd; apply digits_of_uint_acc.
Qed.

Lemma Atoi_of_pos p :
  Strconv.Atoi (NilZero.string_of_uint (Pos.to_uint p))
  = Z.max Strconv.minInt (Z.min Strconv.maxInt (Z.pos p)).
Proof.
  pose proof (DecimalPos.Unsigned.of_to p) as E.
  pose proof (digits_of_uint (Pos.to_uint p)) as G. rewrite E in G.
  pose proof (DecimalPos.Unsigned.to_uint_nonnil p) as N.
  destruct (Pos.to_uint p) as [|u|u|u|u|u|u|u|u|u|u]; [congruence|..];
    unfold Strconv.Atoi; cbn [NilZero.string_of_uint NilEmpty.string_of_uint] in *;
    rewrite G; reflexivity.
Qed.

End decimal.

Section itoa.

Lemma Atoi_of_neg p :
  Strconv.Atoi (String "-" (NilZero.string_of_uint (Pos.to_uint p)))
  = Z.max Strconv.minInt (Z.min Strconv.maxInt (Z.neg p)).
Proof.
  pose proof (DecimalPos.Unsigned.of_to p) as E.
  pose proof (digits_of_uint (Pos.to_uint p)) as G. rewrite E in G.
  pose proof (DecimalPos.Unsigned.to_uint_nonnil p) as N.
  destruct (Pos.to_uint p) as [|u|u|u|u|u|u|u|u|u|u]; [congruence|..];
    unfold Strconv.Atoi; cbn [NilZero.string_of_uint NilEmpty.string_of_uint] in *;
    rewrite G; reflexivity.
Qed.

(** strconv.Atoi reads back what strconv.Itoa wrote, for every int. *)
Lemma Atoi_Itoa i : inIntRange i -> Strconv.Atoi (Strconv.Itoa i) = i.
Proof.
  unfold inIntRange, Strconv.Itoa. intros R.
  destruct i as [|p|p]; cbn [Z.to_int NilZero.string_of_int].
  - reflexivity.
  - rewrite Atoi_of_pos. lia.
  - rewrite Atoi_of_neg. lia.
Qed.

Lemma Itoa_nonempty i : Strconv.Itoa i <> "".
Proof.
  unfold Strconv.Itoa. destruct i as [|p|p]; cbn [Z.to_int NilZero.string_of_int];
    try discriminate.
  pose proof (DecimalPos.Unsigned.to_uint_nonnil p) as N.
  destruct (Pos.to_uint p); [congruence|..]; discriminate.
Qed.

End itoa.

(** ** An application pool, from Create to Read *)

Ltac sent_value :=
  unfold firstValue;
  repeat first [ rewrite lookup_Add_ne by distinct_keys
               | rewrite lookup_Add_eq
               | rewrite lookup_empty ];
  cbn [default app].

Lemma apppool_create_sends d :
  let sentParameters := ApplicationPool.createParameters d in
  firstValue sentParameters "name" = ApplicationPool.name d /\
  firstValue sentParameters "appapplication_name" = ApplicationPool.application d /\
  firstValue sentParameters "appapplication_fqdn" = ApplicationPool.fqdn d /\
  firstValue sentParameters "type" = ApplicationPool.ip_version d /\
  firstValue sentParameters "lb_mode" = ApplicationPool.lb_mode d /\
  firstValue sentParameters "affinity_state" = (if ApplicationPool.affinity d then "1" else "0") /\
  firstValue sentParameters "affinity_session_time" =
    (if ApplicationPool.affinity d
     then Strconv.Itoa (ApplicationPool.affinity_session_duration d) else "") /\
  firstValue sentParameters "best_active_nodes" =
    (if String.eqb (ApplicationPool.lb_mode d) "latency"
     then Strconv.Itoa (ApplicationPool.best_active_nodes d) else "").
Proof.
  unfold ApplicationPool.createParameters. cbv zeta.
  destruct (ApplicationPool.affinity d); cbn [Bool.eqb];
    destruct (String.eqb (ApplicationPool.lb_mode d) "latency");
    conjuncts; sent_value; reflexivity.
Qed.

(** X12. When the answer of rest/app_pool_info gives back, under the keys Read
    maps, the values Create sent for the data [d], Read returns nil and
    leaves [d] as it is: the name, the application, the fqdn, the balancing
    mode, the affinity with its session duration and the number of best
    active nodes all come back. *)
Theorem apppool_read_after_create s d b0 rest :
  710 <= Version s ->
  respond s "get" "rest/app_pool_info" (Url.Add "apppool_id" (ApplicationPool.Id d) ∅)
    = Response 200 (b0 :: rest) ->
  poolAnswerEchoes b0 d ->
  inIntRange (ApplicationPool.affinity_session_duration d) ->
  inIntRange (ApplicationPool.best_active_nodes d) ->
  run (ApplicationPool.resourceapplicationpoolRead s) d =
  (mkWorld d [mkRequest "get" "rest/app_pool_info"
                (Url.Add "apppool_id" (ApplicationPool.Id d) ∅)],
   Returned []).
Proof.
  intros V R (Kname & Kapp & Kfqdn & Klb & Kstate & Ktime & Knodes) Rdur Rban.
  destruct (apppool_create_sends d) as (Sname & Sapp & Sfqdn & _ & Slb & Sstate & Stime & Snodes).
  unfold carries in *.
  rewrite Sname in Kname. rewrite Sapp in Kapp. rewrite Sfqdn in Kfqdn. rewrite Slb in Klb.
  rewrite Sstate in Kstate. rewrite Stime in Ktime. rewrite Snodes in Knodes.
  clear Sname Sapp Sfqdn Slb Sstate Stime Snodes.
  destruct (apppool_read_found _ _ _ _ V R) as [Found _].
  assert (K : Forall (fun key => is_Some (asString (b0 !! key))) (apppoolAssertedKeys b0)).
  { unfold apppoolAssertedKeys. rewrite Kstate.
    destruct (String.eqb _ "0"); cbn [app]; repeat constructor; eauto. }
  rewrite (Found _ (apppool_readFields_run _ _ K)). cbn [data sent]. do 2 f_equal.
  unfold apppoolReadResult. cbv zeta.
  rewrite (stringAt_Some _ _ _ Kname), (stringAt_Some _ _ _ Kapp), (stringAt_Some _ _ _ Kfqdn),
    (stringAt_Some _ _ _ Klb), (stringAt_Some _ _ _ Kstate), (stringAt_Some _ _ _ Ktime),
    (stringAt_Some _ _ _ Knodes).
  destruct d as [id app fq nm ipv lb aff dur ban].
  cbn [ApplicationPool.Id ApplicationPool.application ApplicationPool.fqdn ApplicationPool.name
       ApplicationPool.ip_version ApplicationPool.lb_mode ApplicationPool.affinity
       ApplicationPool.affinity_session_duration ApplicationPool.best_active_nodes] in *.
  assert (Eban : (if String.eqb (if String.eqb lb "latency" then Strconv.Itoa ban else "") ""
                  then ban
                  else Strconv.Atoi (if String.eqb lb "latency" then Strconv.Itoa ban else ""))
                 = ban).
  { destruct (String.eqb lb "latency"); [|reflexivity].
    destruct (String.eqb (Strconv.Itoa ban) ""); [reflexivity|]. now apply Atoi_Itoa. }
  rewrite Eban.
  destruct aff; cbn [String.eqb Ascii.eqb Bool.eqb negb]; rewrite ?Atoi_Itoa by assumption;
    reflexivity.
Qed.

Lemma apppool_read_after_create_witness :
  run (ApplicationPool.resourceapplicationpoolRead echoPoolAppliance) samplePool =
  (mkWorld samplePool [mkRequest "get" "rest/app_pool_info" (Url.Add "apppool_id" "12" ∅)],
   Returned []).
Proof.
  apply (apppool_read_after_create echoPoolAppliance samplePool echoPoolAnswer []).
  - cbn; lia.
  - reflexivity.
  - repeat split; reflexivity.
  - split; vm_compute; discriminate.
  - split; vm_compute; discriminate.
Defined.

(** ** url.Values, from Encode to ParseQuery *)

Section query_escape.








End query_escape.

Section query_pieces.








End query_pieces.

Section query_round_trip.
Implicit Types (v m : Url.Values).










End query_round_trip.

(** ** A DNS forward zone, from Create to Read *)




(** ** ImportState against Read, for the application pool *)

(** X14. On a 200 answer whose first element has every asserted key as a
    string, ImportState and Read of an application pool leave the same
    name, application, fqdn, balancing mode and session duration; Read sets
    the affinity flag from "apppool_affinity_state" while ImportState keeps
    the flag it found; and on an empty "apppool_best_active_nodes" Read
    keeps the local number while ImportState stores 0. *)
Theorem apppool_import_against_read s d b0 rest :
  710 <= Version s ->
  respond s "get" "rest/app_pool_info" (Url.Add "apppool_id" (ApplicationPool.Id d) ∅)
    = Response 200 (b0 :: rest) ->
  Forall (fun key => is_Some (asString (b0 !! key))) (apppoolAssertedKeys b0) ->
  let read := data (fst (run (ApplicationPool.resourceapplicationpoolRead s) d)) in
  let imported := data (fst (run (ApplicationPool.resourceapplicationpoolImportState s) d)) in
  snd (run (ApplicationPool.resourceapplicationpoolImportState s) d)
    = Returned (Some [imported], None) /\
  ApplicationPool.name imported = ApplicationPool.name read /\
  ApplicationPool.application imported = ApplicationPool.application read /\
  ApplicationPool.fqdn imported = ApplicationPool.fqdn read /\
  ApplicationPool.lb_mode imported = ApplicationPool.lb_mode read /\
  ApplicationPool.affinity_session_duration imported
    = ApplicationPool.affinity_session_duration read /\
  ApplicationPool.affinity read = negb (String.eqb (stringAt b0 "apppool_affinity_state") "0") /\
  ApplicationPool.affinity imported = ApplicationPool.affinity d /\
  (stringAt b0 "apppool_best_active_nodes" = "" ->
   ApplicationPool.best_active_nodes read = ApplicationPool.best_active_nodes d /\
   ApplicationPool.best_active_nodes imported = 0) /\
  (stringAt b0 "apppool_best_active_nodes" <> "" ->
   ApplicationPool.best_active_nodes imported = ApplicationPool.best_active_nodes read).
Proof.
  intros V R K read imported. subst read imported.
  destruct (apppool_read_found _ _ _ _ V R) as [ReadOk _].
  destruct (apppool_import_found _ _ _ _ V R) as [ImportOk _].
  rewrite (ReadOk _ (apppool_readFields_run _ _ K)).
  rewrite (ImportOk _ (apppool_importFields_run _ _ K)).
  cbn [fst snd data]. unfold apppoolReadResult, apppoolImportResult. cbv zeta.
  cbn [ApplicationPool.name ApplicationPool.application ApplicationPool.fqdn
       ApplicationPool.lb_mode ApplicationPool.affinity
       ApplicationPool.affinity_session_duration ApplicationPool.best_active_nodes].
  conjuncts; try reflexivity.
  - intros ->. split; reflexivity.
  - intros N. apply String.eqb_neq in N. now rewrite N.
Qed.

Lemma apppool_import_against_read_witness :
  ApplicationPool.affinity
    (data (fst (run (ApplicationPool.resourceapplicationpoolRead poolAppliance) samplePool)))
    = false /\
  ApplicationPool.affinity
    (data (fst (run (ApplicationPool.resourceapplicationpoolImportState poolAppliance)
                  samplePool)))
    = true /\
  ApplicationPool.best_active_nodes
    (data (fst (run (ApplicationPool.resourceapplicationpoolRead poolAppliance) samplePool)))
    = 2 /\
  ApplicationPool.best_active_nodes
    (data (fst (run (ApplicationPool.resourceapplicationpoolImportState poolAppliance)
                  samplePool)))
    = 0.
Proof.
  destruct (apppool_import_against_read poolAppliance samplePool poolAnswer [])
    as (_ & _ & _ & _ & _ & _ & A & B & C & _).
  - cbn; lia.
  - reflexivity.
  - exact poolAnswer_keys.
  - destruct C as [C1 C2]; [reflexivity|].
    split; [exact A | split; [exact B | split; [exact C1 | exact C2]]].
Defined.

(** ** The message of a refused Delete *)

(** X15. When the call completes with a status other than 200 and 204, Delete of
    the application pool (version 710 or later) and of the DNS forward zone
    returns one error that names the object and carries the "errmsg" of the
    first element when it is a string. *)
Theorem delete_failure_carries_errmsg s st buf pool zone :
  st <> 200 -> st <> 204 ->
  (710 <= Version s ->
   respond s "delete" "rest/app_pool_delete" (Url.Add "apppool_id" (ApplicationPool.Id pool) ∅)
     = Response st buf ->
   snd (run (ApplicationPool.resourceapplicationpoolDelete s) pool) =
   Returned [match firstString buf "errmsg" with
             | Some errMsg => "Unable to delete application pool: "
                              +:+ ApplicationPool.name pool +:+ " (" +:+ errMsg +:+ ")"
             | None => "Unable to delete application pool: " +:+ ApplicationPool.name pool
             end]) /\
  (respond s "delete" "rest/dns_zone_delete" (Url.Add "dnszone_id" (DNSForwardZone.Id zone) ∅)
     = Response st buf ->
   snd (run (DNSForwardZone.resourcednsforwardzoneDelete s) zone) =
   Returned [match firstString buf "errmsg" with
             | Some errMsg => "Unable to delete DNS forward zone: "
                              +:+ DNSForwardZone.name zone +:+ " (" +:+ errMsg +:+ ")"
             | None => "Unable to delete DNS forward zone: " +:+ DNSForwardZone.name zone
             end]).
Proof.
  intros N1 N2.
  assert (E : (st =? 200) || (st =? 204) = false).
  { apply orb_false_iff. split; now apply Z.eqb_neq. }
  split.
  - intros V R. rewrite (apppool_delete_run _ _ _ _ V R). cbn zeta. now rewrite E.
  - intros R. rewrite (dnszone_delete_run _ _ _ _ R). cbn zeta. now rewrite E.
Qed.

Lemma delete_failure_carries_errmsg_witness :
  snd (run (ApplicationPool.resourceapplicationpoolDelete refusingAppliance) samplePool)
    = Returned ["Unable to delete application pool: pool (boom)"] /\
  snd (run (DNSForwardZone.resourcednsforwardzoneDelete notFoundAppliance) sampleZone)
    = Returned ["Unable to delete DNS forward zone: example.org"].
Proof.
  split.
  - destruct (delete_failure_carries_errmsg refusingAppliance 500
                [{["errmsg" := JString "boom"]}] samplePool sampleZone) as (A & _);
      [lia | lia |].
    apply A; [cbn; lia | reflexivity].
  - destruct (delete_failure_carries_errmsg notFoundAppliance 404 [] samplePool sampleZone)
      as (_ & B); [lia | lia |].
    apply B; reflexivity.
Defined.
